(** * cf_ai_study_assistant: session history and chat orchestration

    A shallow embedding of the Cloudflare worker in [src/index.js] and of
    the durable object [SessionManager] it talks to, followed by the
    properties of the bounded per-user history, of the prompt builder and
    of the request handlers.

    Conventions of the embedding.
    - A JavaScript array is a [list]; [push] adds at the end, [shift]
      removes the head, [slice] and [map] build new arrays.
    - A JavaScript string is a [string].
    - The transactional storage of one durable object only ever holds the
      key ['history']; it is modelled by the value under that key, [None]
      when the key is absent.
    - The namespace [env.SESSION_MANAGER] is a finite map from the name
      given to [idFromName] to the storage of the object of that name.
    - Handlers are [async] functions that call collaborators and may throw:
      they run in a state-and-exception monad over a [World] that holds the
      durable storage and the trace of every call made to a collaborator.
    - [Date.now()], the parsed request body and the inference service are
      inputs of the model. *)

From Stdlib Require Import ZArith QArith String Ascii List Lia.
From stdpp Require Import base option list strings gmap.

Local Open Scope Z_scope.

(** ** Results of code that may throw *)

Inductive Result (A : Type) : Type :=
| Val (a : A)
| Throw (message : string).
Arguments Val {A} a.
Arguments Throw {A} message.

(** ** Array primitives *)

Section Arrays.
Context {A : Type}.

(** [Array.prototype.push] with one argument. *)
Definition push (l : list A) (x : A) : list A := l ++ [x].

(** [Array.prototype.shift]: drops the first element, if any. *)
Definition shift (l : list A) : list A := tail l.

(** [Array.prototype.slice(start)]: a negative [start] counts from the
    end of the array, and the start index is clamped to [0 .. length]. *)
Definition slice (start : Z) (l : list A) : list A :=
  let len := Z.of_nat (length l) in
  let k := if start <? 0 then Z.max (len + start) 0 else Z.min start len in
  drop (Z.to_nat k) l.

(** The last [n] elements of [l] (all of [l] when it is shorter), in the
    order they have in [l]. Used in statements only. *)
Definition last_n (n : nat) (l : list A) : list A :=
  drop (length l - n)%nat l.
End Arrays.

(** ** The durable object: src/durable-objects/SessionManager.js *)

Record Interaction : Type := {
  timestamp : Z;
  userMessage : string;
  aiResponse : string
}.

Module SessionManager.

(** What [request.json()] gives inside the object: either it throws, or
    it yields the two fields the object destructures. *)
Inductive Json : Type :=
| JsonFail (error : string)
| JsonAdd (message response : string).

Record Request : Type := { pathname : string; json : Json }.

Inductive Body : Type :=
| Text (s : string)
| HistoryJson (history : list Interaction).

Record Response : Type := { status : Z; body : Body }.

Definition addInteraction (now : Z) (request : Request)
    (storage : option (list Interaction))
    : Result Response * option (list Interaction) :=
  match json request with
  | JsonFail error => (Throw error, storage)
  | JsonAdd message response =>
      let history := default [] storage in
      let history :=
        push history {| timestamp := now;
                        userMessage := message;
                        aiResponse := response |} in
      (* Keep only last 20 interactions *)
      let history :=
        if (20 <? Z.of_nat (length history)) then shift history
        else history in
      (Val {| status := 200; body := Text "OK" |}, Some history)
  end.

Definition getHistory (storage : option (list Interaction))
    : Result Response * option (list Interaction) :=
  let history := default [] storage in
  (Val {| status := 200; body := HistoryJson history |}, storage).

Definition clearHistory (storage : option (list Interaction))
    : Result Response * option (list Interaction) :=
  (Val {| status := 200; body := Text "History cleared" |}, None).

Definition fetch (now : Z) (request : Request)
    (storage : option (list Interaction))
    : Result Response * option (list Interaction) :=
  if String.eqb (pathname request) "/add" then
    addInteraction now request storage
  else if String.eqb (pathname request) "/history" then
    getHistory storage
  else if String.eqb (pathname request) "/clear" then
    clearHistory storage
  else
    (Val {| status := 404; body := Text "Not found" |}, storage).

(** [response.json()] on the caller's side: the history array when the
    body is one; any other body of the object is not JSON and the parser
    throws (with a message of the engine's own). *)
Definition response_json (r : Response) : Result (list Interaction) :=
  match body r with
  | HistoryJson history => Val history
  | Text s => Throw ("Unexpected token in JSON: " +:+ s)
  end.

End SessionManager.

(** ** The world the worker runs in *)

(** The inference service [env.AI.run(model, options)]. *)
Record AiInput : Type := {
  model : string;
  prompt : string;
  max_tokens : Z;
  temperature : Q
}.

(** A field read off a JavaScript object, as far as [!x] and [x || d]
    look at it: the property is missing ([undefined]), [null], or a
    string, which is what the data model gives [userId], [message] and a
    completion. *)
Inductive Field : Type :=
| Absent
| Null
| Str (s : string).

Inductive AiOutcome : Type :=
| AiReject (error : string)
| AiResolve (response : Field).

Inductive Event : Type :=
| EvSession (name : string) (request : SessionManager.Request)
| EvAiRun (input : AiInput)
| EvConsoleError (label error : string).

Record World : Type := {
  sessions : gmap string (list Interaction);
  trace : list Event
}.

(** Handlers: state and exceptions. A thrown error keeps the effects that
    happened before it. *)
Definition M (A : Type) : Type := World -> Result A * World.

Definition ret {A} (a : A) : M A := fun w => (Val a, w).

Definition throw {A} (message : string) : M A := fun w => (Throw message, w).

Definition bind {A B} (m : M A) (k : A -> M B) : M B :=
  fun w =>
    match m w with
    | (Val a, w') => k a w'
    | (Throw e, w') => (Throw e, w')
    end.

Definition try_catch {A} (m : M A) (handler : string -> M A) : M A :=
  fun w =>
    match m w with
    | (Val a, w') => (Val a, w')
    | (Throw e, w') => handler e w'
    end.

Definition lift {A} (r : Result A) : M A := fun w => (r, w).

Definition emit (e : Event) : M unit :=
  fun w => (Val tt, {| sessions := sessions w; trace := trace w ++ [e] |}).

Declare Scope js_scope.
Delimit Scope js_scope with js.
Notation "x <- m ;; k" := (bind m (fun x => k))
  (at level 100, m at next level, right associativity) : js_scope.
Notation "m ;;; k" := (bind m (fun _ => k))
  (at level 100, right associativity) : js_scope.

(** [env.SESSION_MANAGER.get(env.SESSION_MANAGER.idFromName(name)).fetch(request)]:
    runs the object of that name on its own storage and writes the storage
    back. *)
Definition session_fetch (now : Z) (name : string)
    (request : SessionManager.Request) : M SessionManager.Response :=
  fun w =>
    let '(r, storage') :=
      SessionManager.fetch now request (sessions w !! name) in
    (r, {| sessions := partial_alter (fun _ => storage') name (sessions w);
           trace := trace w ++ [EvSession name request] |}).

(** The history a key holds: what [getHistory] reads from storage. *)
Definition history_at (w : World) (name : string) : list Interaction :=
  default [] (sessions w !! name).

Definition add_request (message response : string) : SessionManager.Request :=
  {| SessionManager.pathname := "/add";
     SessionManager.json := SessionManager.JsonAdd message response |}.

Definition history_request : SessionManager.Request :=
  {| SessionManager.pathname := "/history";
     SessionManager.json := SessionManager.JsonFail "Unexpected end of JSON input" |}.

Definition clear_request : SessionManager.Request :=
  {| SessionManager.pathname := "/clear";
     SessionManager.json := SessionManager.JsonFail "Unexpected end of JSON input" |}.

(** ** The worker: src/index.js *)

(** Truthiness of a field: [undefined], [null] and the empty string are
    falsy, every other string is truthy. *)
Definition falsy (x : Field) : bool :=
  match x with
  | Absent => true
  | Null => true
  | Str s => if decide (s = EmptyString) then true else false
  end.

(** The string a field stands for where the code uses it as one. *)
Definition to_string (x : Field) : string :=
  match x with
  | Absent => "undefined"
  | Null => "null"
  | Str s => s
  end.

(** [x || d] with a string default. *)
Definition or_else (x : Field) (d : string) : string :=
  if falsy x then d else to_string x.

(** What [const { userId, message } = await request.json()] gives the
    worker: it throws (no body, a body that is not JSON, the body [null]),
    or yields a value whose [userId] and [message] properties are
    destructured. *)
Inductive Json : Type :=
| JsonFail (error : string)
| JsonObject (userId message : Field).

Record Request : Type := {
  method : string;
  pathname : string;
  json : Json;
  (** [url.searchParams.get('userId')] *)
  userId_param : Field
}.

Inductive Body : Type :=
| NullBody
| Text (s : string)
| Html (s : string)
| ErrorJson (error : string)
| ChatJson (response sessionId : string)
| HistoryJson (history : list Interaction)
| SuccessJson (success : bool).

(** A response as the code builds it: [headers] are the headers the code
    hands to the [Response] constructor. (To a response with a string body
    and no content type among them the runtime adds one of its own.) *)
Record Response : Type := {
  status : Z;
  headers : list (string * string);
  body : Body
}.

(** One entry of the context window. *)
Record Exchange : Type := { user : string; assistant : string }.

Definition nl : string := String "010"%char EmptyString.

Definition buildPrompt (message : string) (history : list Exchange) : string :=
  let prompt :=
    "You are an AI study assistant specializing in programming and computer science education."
    +:+ nl +:+
    "You help students understand complex concepts through clear explanations and examples and you can use technical terminology appropriately."
    +:+ nl in
  let prompt :=
    if (0 <? Z.of_nat (length history)) then
      let prompt := prompt +:+ "Previous conversation context:" +:+ nl in
      let prompt :=
        fold_left
          (fun prompt h =>
             prompt +:+ ("Student: " +:+ user h +:+ nl +:+
                         "Assistant: " +:+ assistant h +:+ nl))
          history prompt in
      prompt +:+ nl
    else prompt in
  prompt +:+ ("Current question: " +:+ message +:+ nl +:+ nl +:+
              "Provide a helpful, educational response:").

(** The context window of [handleChatRequest]:
    [history.slice(-5).map(h => ({ user: h.userMessage, assistant: h.aiResponse }))]. *)
Definition recentHistory (history : list Interaction) : list Exchange :=
  map (fun h => {| user := userMessage h; assistant := aiResponse h |})
      (slice (-5) history).

Definition json_headers (corsHeaders : list (string * string))
    : list (string * string) :=
  ("Content-Type", "application/json") :: corsHeaders.

Section Worker.

(** The inference service behind [env.AI], the clock read by the durable
    object, and the static page. *)
Variable AI : AiInput -> AiOutcome.
Variable Date_now : Z.
Variable getHTMLContent : string.

Local Open Scope js_scope.

Definition AI_run (input : AiInput) : M Field :=
  fun w =>
    let w' := {| sessions := sessions w;
                 trace := trace w ++ [EvAiRun input] |} in
    match AI input with
    | AiReject error => (Throw error, w')
    | AiResolve response => (Val response, w')
    end.

Definition handleChatRequest (request : Request)
    (corsHeaders : list (string * string)) : M Response :=
  if negb (String.eqb (method request) "POST") then
    ret {| status := 405; headers := corsHeaders;
           body := Text "Method not allowed" |}
  else
    match json request with
    | JsonFail error => throw error
    | JsonObject userId message =>
        if falsy userId || falsy message then
          ret {| status := 400; headers := json_headers corsHeaders;
                 body := ErrorJson "Missing userId or message" |}
        else
          (* Get or create session using Durable Object *)
          let session := session_fetch Date_now (to_string userId) in
          (* Get conversation history *)
          historyResponse <- session history_request ;;
          history <- lift (SessionManager.response_json historyResponse) ;;
          (* Build context from recent history (last 5 interactions) *)
          let recentHistory := recentHistory history in
          (* Generate AI response *)
          aiResponse <-
            try_catch
              (let prompt := buildPrompt (to_string message) recentHistory in
               response <- AI_run {| model := "@cf/meta/llama-3.2-3b-instruct";
                                     prompt := prompt;
                                     max_tokens := 2048;
                                     temperature := 7 # 10 |} ;;
               ret (or_else response
                      "I apologize, but I could not generate a response. Please try again."))
              (fun error =>
                 emit (EvConsoleError "AI Error:" error) ;;;
                 ret "I encountered an error while processing your request. Please try again.") ;;
          (* Store the interaction in session *)
          session (add_request (to_string message) aiResponse) ;;;
          ret {| status := 200; headers := json_headers corsHeaders;
                 body := ChatJson aiResponse (to_string userId) |}
    end.

Definition handleSessionRequest (request : Request)
    (corsHeaders : list (string * string)) : M Response :=
  let userId := userId_param request in
  if falsy userId then
    ret {| status := 400; headers := json_headers corsHeaders;
           body := ErrorJson "Missing userId" |}
  else
    let session := session_fetch Date_now (to_string userId) in
    response <- session history_request ;;
    history <- lift (SessionManager.response_json response) ;;
    ret {| status := 200; headers := json_headers corsHeaders;
           body := HistoryJson history |}.

Definition handleClearSessionRequest (request : Request)
    (corsHeaders : list (string * string)) : M Response :=
  if negb (String.eqb (method request) "POST") then
    ret {| status := 405; headers := corsHeaders;
           body := Text "Method not allowed" |}
  else
    let userId := userId_param request in
    if falsy userId then
      ret {| status := 400; headers := json_headers corsHeaders;
             body := ErrorJson "Missing userId" |}
    else
      let session := session_fetch Date_now (to_string userId) in
      session clear_request ;;;
      ret {| status := 200; headers := json_headers corsHeaders;
             body := SuccessJson true |}.

Definition handleVoiceRequest (request : Request)
    (corsHeaders : list (string * string)) : M Response :=
  ret {| status := 501; headers := json_headers corsHeaders;
         body := ErrorJson "Voice transcription not yet implemented" |}.

Definition fetch (request : Request) : M Response :=
  (* CORS headers for development *)
  let corsHeaders :=
    [ ("Access-Control-Allow-Origin", "*");
      ("Access-Control-Allow-Methods", "GET, POST, OPTIONS");
      ("Access-Control-Allow-Headers", "Content-Type") ] in
  (* Handle CORS preflight *)
  if String.eqb (method request) "OPTIONS" then
    ret {| status := 200; headers := corsHeaders; body := NullBody |}
  else
    try_catch
      ((* API Routes *)
       if String.eqb (pathname request) "/api/chat" then
         handleChatRequest request corsHeaders
       else if String.eqb (pathname request) "/api/session" then
         handleSessionRequest request corsHeaders
       else if String.eqb (pathname request) "/api/session/clear" then
         handleClearSessionRequest request corsHeaders
       else if String.eqb (pathname request) "/api/voice" then
         handleVoiceRequest request corsHeaders
       else
         (* Serve static frontend *)
         ret {| status := 200;
                headers := ("Content-Type", "text/html") :: corsHeaders;
                body := Html getHTMLContent |})
      (fun error =>
         ret {| status := 500; headers := json_headers corsHeaders;
                body := ErrorJson error |}).

End Worker.

(** A sequence of appends to one key: each entry is the clock reading and
    the two strings of one [/add] call. *)
Fixpoint run_adds (name : string) (ops : list (Z * string * string))
    (w : World) : World :=
  match ops with
  | [] => w
  | (now, message, response) :: ops =>
      run_adds name ops (snd (session_fetch now name (add_request message response) w))
  end.

(** The record one append builds. *)
Definition record_of (op : Z * string * string) : Interaction :=
  let '(now, message, response) := op in
  {| timestamp := now; userMessage := message; aiResponse := response |}.

(** * Vocabulary of the statements *)

(** The three answers of the durable object on its known paths. *)
Definition ok_response : SessionManager.Response :=
  {| SessionManager.status := 200; SessionManager.body := SessionManager.Text "OK" |}.

Definition history_response (h : list Interaction) : SessionManager.Response :=
  {| SessionManager.status := 200; SessionManager.body := SessionManager.HistoryJson h |}.

Definition cleared_response : SessionManager.Response :=
  {| SessionManager.status := 200;
     SessionManager.body := SessionManager.Text "History cleared" |}.

(** The world after one call through the stub that left the store [m]. *)
Definition with_call (w : World) (m : gmap string (list Interaction))
    (name : string) (request : SessionManager.Request) : World :=
  {| sessions := m; trace := trace w ++ [EvSession name request] |}.

(** No key was ever written and no call was made. *)
Definition empty_world : World := {| sessions := ∅; trace := [] |}.

(** The [i]-th append of a sample conversation. *)
Definition sample_op (i : nat) : Z * string * string :=
  (1000 + Z.of_nat i, "question", "answer").

(** The History a key holds after one more append. *)
Definition history_after_add (w : World) (name : string) (now : Z)
    (message response : string) : list Interaction :=
  history_at (snd (session_fetch now name (add_request message response) w)) name.


(** The three parts of a prompt. *)
Definition preamble : string :=
  "You are an AI study assistant specializing in programming and computer science education."
  +:+ nl +:+
  "You help students understand complex concepts through clear explanations and examples and you can use technical terminology appropriately."
  +:+ nl.

Definition exchange_lines (h : Exchange) : string :=
  "Student: " +:+ user h +:+ nl +:+ "Assistant: " +:+ assistant h +:+ nl.

Definition transcript (history : list Exchange) : string :=
  match history with
  | [] => EmptyString
  | _ :: _ =>
      "Previous conversation context:" +:+ nl +:+
      foldr String.append EmptyString (map exchange_lines history) +:+ nl
  end.

Definition question_section (message : string) : string :=
  "Current question: " +:+ message +:+ nl +:+ nl +:+
  "Provide a helpful, educational response:".

Definition sample_window : list Exchange :=
  [ {| user := "What is a stack?"; assistant := "A LIFO structure." |};
    {| user := "And a queue?"; assistant := "A FIFO structure." |} ].

(** A field is missing or empty. *)
Definition missing_or_empty (x : Field) : Prop :=
  x = Absent \/ x = Null \/ x = Str EmptyString.

(** What one chat turn asks of the inference service, the reply it settles
    on for each outcome, and what it logs. *)
Definition inference_input (message : string) (history : list Interaction)
    : AiInput :=
  {| model := "@cf/meta/llama-3.2-3b-instruct";
     prompt := buildPrompt message (recentHistory history);
     max_tokens := 2048;
     temperature := 7 # 10 |}.

Definition apology : string :=
  "I apologize, but I could not generate a response. Please try again.".

Definition error_fallback : string :=
  "I encountered an error while processing your request. Please try again.".

Definition reply_of (o : AiOutcome) : string :=
  match o with
  | AiReject _ => error_fallback
  | AiResolve response => or_else response apology
  end.

Definition logged (o : AiOutcome) : list Event :=
  match o with
  | AiReject error => [EvConsoleError "AI Error:" error]
  | AiResolve _ => []
  end.

(** Calls of the trace that append to a History, and calls of the
    inference service. *)
Definition is_add_call (e : Event) : bool :=
  match e with
  | EvSession _ request =>
      String.eqb (SessionManager.pathname request) "/add"
  | _ => false
  end.

Definition is_ai_call (e : Event) : bool :=
  match e with
  | EvAiRun _ => true
  | _ => false
  end.

(** A POST to [/api/chat] with the given body fields. *)
Definition chat_request (userId message : Field) : Request :=
  {| method := "POST"; pathname := "/api/chat";
     json := JsonObject userId message; userId_param := Null |}.

(** Three inference services: one that always fails, one that answers,
    one that answers with the empty string. *)
Definition failing_AI (input : AiInput) : AiOutcome := AiReject "timed out".

Definition echo_AI (input : AiInput) : AiOutcome :=
  AiResolve (Str "A stack is a LIFO structure.").

Definition silent_AI (input : AiInput) : AiOutcome := AiResolve (Str EmptyString).

(** The (user, assistant) pair of a record. *)
Definition to_exchange (i : Interaction) : Exchange :=
  {| user := userMessage i; assistant := aiResponse i |}.

(** The world after seven recorded turns of one user. *)
Definition seven_turns : World :=
  run_adds "alice" (map sample_op (seq 1 7)) empty_world.

(** The paths [fetch] routes to a handler. *)
Definition api_routes : list string :=
  ["/api/chat"; "/api/session"; "/api/session/clear"; "/api/voice"].

(** A GET for a path that is no API route. *)
Definition unknown_route_request : Request :=
  {| method := "GET"; pathname := "/nowhere";
     json := JsonFail "Unexpected end of JSON input"; userId_param := Null |}.

(** ** Vocabulary of the router and of conversations *)

(** The [corsHeaders] object of [fetch]. *)
Definition cors_headers : list (string * string) :=
  [ ("Access-Control-Allow-Origin", "*");
    ("Access-Control-Allow-Methods", "GET, POST, OPTIONS");
    ("Access-Control-Allow-Headers", "Content-Type") ].

(** The record a chat turn appends, and the History it leaves. *)
Definition turn_record (now : Z) (message reply : string) : Interaction :=
  {| timestamp := now; userMessage := message; aiResponse := reply |}.

Definition evict_then_push (h : list Interaction) (r : Interaction)
    : list Interaction :=
  drop (if decide (20 <= length h)%nat then 1 else 0) h ++ [r].

(** The answers of [fetch], case by case: what a request gets and the
    world it leaves, as a relation between the request, the world before,
    the response and the world after. *)
Inductive Outcome (AI : AiInput -> AiOutcome) (now : Z) (page : string)
    (request : Request) (w : World) : Response -> World -> Prop :=
| out_preflight :
    method request = "OPTIONS" ->
    Outcome AI now page request w
      {| status := 200; headers := cors_headers; body := NullBody |} w
| out_page :
    method request <> "OPTIONS" ->
    pathname request ∉ api_routes ->
    Outcome AI now page request w
      {| status := 200;
         headers := ("Content-Type", "text/html") :: cors_headers;
         body := Html page |} w
| out_voice :
    method request <> "OPTIONS" ->
    pathname request = "/api/voice" ->
    Outcome AI now page request w
      {| status := 501; headers := json_headers cors_headers;
         body := ErrorJson "Voice transcription not yet implemented" |} w
| out_not_post :
    method request <> "OPTIONS" ->
    method request <> "POST" ->
    pathname request = "/api/chat" \/ pathname request = "/api/session/clear" ->
    Outcome AI now page request w
      {| status := 405; headers := cors_headers;
         body := Text "Method not allowed" |} w
| out_chat_unparsed error :
    method request = "POST" ->
    pathname request = "/api/chat" ->
    json request = JsonFail error ->
    Outcome AI now page request w
      {| status := 500; headers := json_headers cors_headers;
         body := ErrorJson error |} w
| out_chat_invalid userId message :
    method request = "POST" ->
    pathname request = "/api/chat" ->
    json request = JsonObject userId message ->
    missing_or_empty userId \/ missing_or_empty message ->
    Outcome AI now page request w
      {| status := 400; headers := json_headers cors_headers;
         body := ErrorJson "Missing userId or message" |} w
| out_chat_turn userId message :
    method request = "POST" ->
    pathname request = "/api/chat" ->
    json request = JsonObject (Str userId) (Str message) ->
    userId <> EmptyString -> message <> EmptyString ->
    let h := history_at w userId in
    let input := inference_input message h in
    let reply := reply_of (AI input) in
    Outcome AI now page request w
      {| status := 200; headers := json_headers cors_headers;
         body := ChatJson reply userId |}
      {| sessions :=
           <[userId := evict_then_push h (turn_record now message reply)]>
             (sessions w);
         trace := trace w ++ [EvSession userId history_request; EvAiRun input]
                    ++ logged (AI input)
                    ++ [EvSession userId (add_request message reply)] |}
| out_no_user :
    method request <> "OPTIONS" ->
    pathname request = "/api/session"
    \/ (pathname request = "/api/session/clear" /\ method request = "POST") ->
    missing_or_empty (userId_param request) ->
    Outcome AI now page request w
      {| status := 400; headers := json_headers cors_headers;
         body := ErrorJson "Missing userId" |} w
| out_session_read userId :
    method request <> "OPTIONS" ->
    pathname request = "/api/session" ->
    userId_param request = Str userId -> userId <> EmptyString ->
    Outcome AI now page request w
      {| status := 200; headers := json_headers cors_headers;
         body := HistoryJson (history_at w userId) |}
      (with_call w (sessions w) userId history_request)
| out_session_clear userId :
    method request = "POST" ->
    pathname request = "/api/session/clear" ->
    userId_param request = Str userId -> userId <> EmptyString ->
    Outcome AI now page request w
      {| status := 200; headers := json_headers cors_headers;
         body := SuccessJson true |}
      (with_call w (delete userId (sessions w)) userId clear_request).

(** The worker serving requests one after the other; each comes with the
    behaviour of the inference service and the clock reading of its time. *)
Fixpoint serve (page : string)
    (requests : list ((AiInput -> AiOutcome) * Z * Request)) (w : World)
    : World :=
  match requests with
  | [] => w
  | (AI, now, request) :: requests =>
      serve page requests (snd (fetch AI now page request w))
  end.

(** The users a request names: the [userId] string of its body and the
    [userId] string of its query, where it has them. *)
Definition named_users (request : Request) : list string :=
  match json request with
  | JsonObject (Str userId) _ => [userId]
  | _ => []
  end
  ++ match userId_param request with
     | Str userId => [userId]
     | _ => []
     end.

(** [userId] or [message] is missing or empty in a chat request: the body
    gives nothing to destructure, or one of the two fields is absent,
    [null] or the empty string. *)
Definition chat_fields_missing (request : Request) : Prop :=
  match json request with
  | JsonFail _ => True
  | JsonObject userId message =>
      missing_or_empty userId \/ missing_or_empty message
  end.

(** One chat turn of a conversation of one user, as a served request. *)
Definition chat_turn_of (userId : string)
    (turn : (AiInput -> AiOutcome) * Z * string)
    : (AiInput -> AiOutcome) * Z * Request :=
  let '(AI, now, message) := turn in
  (AI, now, chat_request (Str userId) (Str message)).

(** A user text that carries the labels of the transcript. *)
Definition forged_user (a b c : string) : string :=
  a +:+ nl +:+ "Assistant: " +:+ b +:+ nl +:+ "Student: " +:+ c.

Definition total_length (l : list nat) : nat := foldr Nat.add 0%nat l.

(** What every stored History looks like in a world the worker built: it
    sits under a non-empty key, holds between 1 and 20 records, and no
    record has an empty message or an empty reply. *)
Definition filled (r : Interaction) : Prop :=
  userMessage r <> EmptyString /\ aiResponse r <> EmptyString.

Definition sound_world (w : World) : Prop :=
  forall (name : string) (h : list Interaction),
    sessions w !! name = Some h ->
    name <> EmptyString /\ h <> [] /\ (length h <= 20)%nat /\ Forall filled h.

(** The calls a request added to the trace. *)
Definition new_calls (w w' : World) : list Event :=
  drop (length (trace w)) (trace w').

(** Sample requests: a chat POST whose body does not parse, a read and a
    clear of one user's History. *)
Definition unparsed_chat_request : Request :=
  {| method := "POST"; pathname := "/api/chat";
     json := JsonFail "Unexpected end of JSON input"; userId_param := Null |}.

Definition session_request (userId : Field) : Request :=
  {| method := "GET"; pathname := "/api/session";
     json := JsonFail "Unexpected end of JSON input"; userId_param := userId |}.

Definition clear_session_request (userId : Field) : Request :=
  {| method := "POST"; pathname := "/api/session/clear";
     json := JsonFail "Unexpected end of JSON input"; userId_param := userId |}.

(** The time and the question of a stored record, and of a chat turn. *)
Definition asked (r : Interaction) : Z * string :=
  (timestamp r, userMessage r).

Definition turn_asked (turn : (AiInput -> AiOutcome) * Z * string)
    : Z * string :=
  let '(_, now, message) := turn in (now, message).

Definition turn_message (turn : (AiInput -> AiOutcome) * Z * string) : string :=
  let '(_, _, message) := turn in message.

(** The characters one exchange takes in a transcript: its two texts, the
    two labels and the two line ends. *)
Definition exchange_size (h : Exchange) : nat :=
  (22 + String.length (user h) + String.length (assistant h))%nat.

(** Requests sent straight to one durable object, one after the other,
    each with the clock reading of its time; a request that throws leaves
    the storage it found. *)
Fixpoint run_object (requests : list (Z * SessionManager.Request))
    (storage : option (list Interaction)) : option (list Interaction) :=
  match requests with
  | [] => storage
  | (now, request) :: requests =>
      run_object requests (snd (SessionManager.fetch now request storage))
  end.

(** * Properties *)

(** ** Lists: the last [n] elements *)

Section LastN.
Context {A : Type}.
Implicit Types (l : list A) (x : A) (n : nat).

Lemma last_n_length n l : length (last_n n l) = Nat.min n (length l).
Proof. unfold last_n. rewrite length_drop. lia. Qed.

Lemma last_n_all n l : (length l <= n)%nat -> last_n n l = l.
Proof.
  intros Hle. unfold last_n.
  replace (length l - n)%nat with 0%nat by lia. reflexivity.
Qed.

Lemma last_n_snoc n l x :
  (0 < n)%nat -> last_n n (last_n n l ++ [x]) = last_n n (l ++ [x]).
Proof.
  intros Hn. destruct (decide (length l <= n)%nat) as [Hle|Hgt].
  - rewrite (last_n_all n l) by exact Hle. reflexivity.
  - unfold last_n at 1 3. rewrite !length_app, last_n_length. simpl.
    unfold last_n.
    rewrite !drop_app_le by (rewrite ?length_drop; lia).
    rewrite drop_drop. f_equal. f_equal. lia.
Qed.

Lemma last_n_is_suffix n l : exists front, l = front ++ last_n n l.
Proof. exists (take (length l - n) l). unfold last_n. symmetry. apply take_drop. Qed.
End LastN.

(** ** The durable object *)

(** One call of [addInteraction] stores the array it read with the new
    record at the end, less its first element when it already held 20 or
    more. *)
Lemma addInteraction_stores now message response storage :
  let h := default [] storage in
  let r := {| timestamp := now; userMessage := message; aiResponse := response |} in
  SessionManager.addInteraction now (add_request message response) storage
  = (Val ok_response,
     Some (drop (if decide (20 <= length h)%nat then 1 else 0) h ++ [r])).
Proof.
  intros h r. unfold SessionManager.addInteraction. simpl.
  fold h. fold r. unfold push, shift. f_equal. f_equal.
  rewrite length_app. simpl.
  destruct (decide (20 <= length h)%nat) as [Hge|Hlt].
  - replace (20 <? Z.of_nat (length h + 1)) with true
      by (symmetry; apply Z.ltb_lt; lia).
    destruct h as [|x h']; [simpl in Hge; lia | reflexivity].
  - replace (20 <? Z.of_nat (length h + 1)) with false
      by (symmetry; apply Z.ltb_ge; lia).
    reflexivity.
Qed.

Lemma addInteraction_bounded now message response storage :
  let h := default [] storage in
  let r := {| timestamp := now; userMessage := message; aiResponse := response |} in
  (length h <= 20)%nat ->
  SessionManager.addInteraction now (add_request message response) storage
  = (Val ok_response, Some (last_n 20 (h ++ [r]))).
Proof.
  intros h r Hle. rewrite addInteraction_stores. fold h. fold r.
  f_equal. f_equal.
  destruct (decide (20 <= length h)%nat) as [Hge|Hlt].
  - unfold last_n. rewrite length_app. simpl.
    replace (length h + 1 - 20)%nat with 1%nat by lia.
    rewrite drop_app_le by lia. reflexivity.
  - rewrite last_n_all by (rewrite length_app; simpl; lia). reflexivity.
Qed.

(** ** Running handlers *)

Lemma bind_Val {A B} (m : M A) (k : A -> M B) w a w' :
  m w = (Val a, w') -> bind m k w = k a w'.
Proof. intros H. unfold bind. rewrite H. reflexivity. Qed.

Lemma bind_Throw {A B} (m : M A) (k : A -> M B) w e w' :
  m w = (Throw e, w') -> bind m k w = (Throw e, w').
Proof. intros H. unfold bind. rewrite H. reflexivity. Qed.

Lemma try_catch_Val {A} (m : M A) handler w a w' :
  m w = (Val a, w') -> try_catch m handler w = (Val a, w').
Proof. intros H. unfold try_catch. rewrite H. reflexivity. Qed.

Lemma try_catch_Throw {A} (m : M A) handler w e w' :
  m w = (Throw e, w') -> try_catch m handler w = handler e w'.
Proof. intros H. unfold try_catch. rewrite H. reflexivity. Qed.

(** ** Calls through the stub *)

Lemma session_fetch_add now name message response w :
  let h := history_at w name in
  let r := {| timestamp := now; userMessage := message; aiResponse := response |} in
  session_fetch now name (add_request message response) w
  = (Val ok_response,
     with_call w
       (<[name := drop (if decide (20 <= length h)%nat then 1 else 0) h ++ [r]]>
          (sessions w))
       name (add_request message response)).
Proof.
  intros h r. unfold session_fetch.
  change (SessionManager.fetch now (add_request message response) (sessions w !! name))
    with (SessionManager.addInteraction now (add_request message response)
            (sessions w !! name)).
  rewrite addInteraction_stores. reflexivity.
Qed.

Lemma session_fetch_history now name w :
  session_fetch now name history_request w
  = (Val (history_response (history_at w name)),
     with_call w (sessions w) name history_request).
Proof.
  unfold session_fetch, with_call. simpl. f_equal. f_equal.
  apply partial_alter_self.
Qed.

Lemma session_fetch_clear now name w :
  session_fetch now name clear_request w
  = (Val cleared_response,
     with_call w (delete name (sessions w)) name clear_request).
Proof. reflexivity. Qed.

Lemma history_at_insert w m name h request :
  m = <[name := h]> (sessions w) ->
  history_at (with_call w m name request) name = h.
Proof. intros ->. unfold history_at. simpl. rewrite lookup_insert_eq. reflexivity. Qed.

(** ** History Store: bound, order, eviction *)

Lemma run_adds_history name ops :
  forall w pre,
    history_at w name = last_n 20 pre ->
    history_at (run_adds name ops w) name = last_n 20 (pre ++ map record_of ops).
Proof.
  induction ops as [|[[now message] response] ops IH]; intros w pre Hw.
  - simpl. rewrite app_nil_r. exact Hw.
  - cbn [run_adds map]. rewrite session_fetch_add. cbn [snd].
    rewrite (IH _ (pre ++ [record_of (now, message, response)])).
    + rewrite <- app_assoc. reflexivity.
    + erewrite history_at_insert by reflexivity.
      pose proof (addInteraction_bounded now message response
                    (Some (history_at w name))) as Hb.
      rewrite addInteraction_stores in Hb. simpl in Hb.
      assert (Hlen : (length (history_at w name) <= 20)%nat)
        by (rewrite Hw, last_n_length; lia).
      specialize (Hb Hlen). injection Hb as Hb. rewrite Hb.
      rewrite Hw. apply last_n_snoc. lia.
Qed.

(** C1. Starting from the empty History of a key, after every append of a
    sequence of appends to that key (that is, after the first [n] of them,
    for every [n]) the History holds at most 20 records, and they are
    exactly the last 20 records appended so far (all of them while fewer
    than 20 were appended), in the order of their appends. *)
Theorem C1_fifo_eviction (name : string) (ops : list (Z * string * string))
    (n : nat) (w : World) :
  history_at w name = [] ->
  let w' := run_adds name (take n ops) w in
  (length (history_at w' name) <= 20)%nat /\
  history_at w' name = last_n 20 (map record_of (take n ops)).
Proof.
  intros Hw w'.
  assert (H : history_at w' name = last_n 20 (map record_of (take n ops))).
  { unfold w'. rewrite (run_adds_history name (take n ops) w []); [reflexivity|].
    rewrite Hw. reflexivity. }
  split; [|exact H]. rewrite H, last_n_length. lia.
Qed.

Lemma C1_fifo_eviction_witness :
  history_at empty_world "alice" = [] /\
  let w' := run_adds "alice" (take 22 (map sample_op (seq 1 25))) empty_world in
  (length (history_at w' "alice") <= 20)%nat /\
  history_at w' "alice"
  = last_n 20 (map record_of (take 22 (map sample_op (seq 1 25)))).
Proof.
  split; [reflexivity|].
  apply (C1_fifo_eviction "alice" (map sample_op (seq 1 25)) 22 empty_world).
  reflexivity.
Defined.

(** The scenario of the 21st interaction: record 1 is gone, records 2 to
    21 remain in their order. *)
Example append_21st :
  map timestamp
    (history_at (run_adds "alice" (map sample_op (seq 1 21)) empty_world) "alice")
  = map (fun i => 1000 + Z.of_nat i) (seq 2 20).
Proof. vm_compute. reflexivity. Qed.

(** C4. For every key and every state of its History, recording A, then
    recording B, then reading the History gives a History that ends with
    A's record immediately followed by B's record: A comes before B. *)
Theorem C4_record_order (name : string) (w : World)
    (nowA nowB now : Z) (messageA responseA messageB responseB : string) :
  let A := {| timestamp := nowA; userMessage := messageA; aiResponse := responseA |} in
  let B := {| timestamp := nowB; userMessage := messageB; aiResponse := responseB |} in
  exists front : list Interaction,
    fst ((session_fetch nowA name (add_request messageA responseA) ;;;
          session_fetch nowB name (add_request messageB responseB) ;;;
          session_fetch now name history_request)%js w)
    = Val (history_response (front ++ [A; B])).
Proof.
  intros A B.
  erewrite bind_Val by apply session_fetch_add.
  erewrite bind_Val by apply session_fetch_add.
  rewrite session_fetch_history. simpl.
  erewrite !history_at_insert by reflexivity.
  fold A. fold B.
  set (h := history_at w name).
  set (h1 := drop (if decide (20 <= length h)%nat then 1 else 0) h).
  destruct (decide (20 <= length (h1 ++ [A]))%nat) as [Hge|Hlt].
  - destruct h1 as [|x h1'].
    + simpl in Hge. lia.
    + exists h1'. simpl. rewrite drop_0, <- app_assoc. reflexivity.
  - exists h1. simpl. rewrite drop_0, <- app_assoc. reflexivity.
Qed.

Lemma history_after_add_eq w name now message response :
  let h := history_at w name in
  let r := {| timestamp := now; userMessage := message; aiResponse := response |} in
  history_after_add w name now message response
  = drop (if decide (20 <= length h)%nat then 1 else 0) h ++ [r].
Proof.
  intros h r. unfold history_after_add. rewrite session_fetch_add. cbn [snd].
  erewrite history_at_insert by reflexivity. reflexivity.
Qed.




(** C6. For every key and every state of its History, clearing and then
    loading gives the empty sequence, and the key holds nothing afterwards;
    loading a key that was never written succeeds with the empty
    sequence and leaves the store as it was. *)
Theorem C6_clear_then_load (name : string) (w : World) (now now' : Z) :
  (let '(r, w') :=
     (session_fetch now name clear_request ;;;
      session_fetch now' name history_request)%js w in
   r = Val (history_response []) /\ history_at w' name = []) /\
  (sessions w !! name = None ->
   let '(r, w') := session_fetch now name history_request w in
   r = Val (history_response []) /\ sessions w' = sessions w).
Proof.
  split.
  - erewrite bind_Val by apply session_fetch_clear.
    rewrite session_fetch_history.
    unfold history_at, with_call. cbn [sessions].
    rewrite lookup_delete_eq. split; reflexivity.
  - intros Hnone. rewrite session_fetch_history.
    unfold history_at. rewrite Hnone. split; reflexivity.
Qed.

Lemma C6_clear_then_load_witness :
  sessions empty_world !! "alice" = None /\
  let '(r, w') := session_fetch 0 "alice" history_request empty_world in
  r = Val (history_response []) /\ sessions w' = sessions empty_world.
Proof.
  split; [reflexivity|].
  apply (C6_clear_then_load "alice" empty_world 0 0). reflexivity.
Defined.

(** ** Prompt Builder *)

Lemma append_cons a s t : String a s +:+ t = String a (s +:+ t).
Proof. reflexivity. Qed.

Lemma append_nil_r s : s +:+ EmptyString = s.
Proof. induction s as [|a s IH]; [reflexivity|]. rewrite append_cons, IH. reflexivity. Qed.

Lemma append_assoc s t u : (s +:+ t) +:+ u = s +:+ (t +:+ u).
Proof.
  induction s as [|a s IH]; [reflexivity|].
  rewrite !append_cons, IH. reflexivity.
Qed.

Lemma fold_left_append {A} (f : A -> string) (l : list A) (acc : string) :
  fold_left (fun prompt h => prompt +:+ f h) l acc
  = acc +:+ foldr String.append EmptyString (map f l).
Proof.
  revert acc. induction l as [|x l IH]; intros acc.
  - simpl. rewrite append_nil_r. reflexivity.
  - cbn [fold_left map foldr]. rewrite IH, append_assoc. reflexivity.
Qed.

(** C8. The prompt builder is a function of the message and the context
    window alone: equal inputs give the same string. Its output is the
    fixed preamble, then, exactly when the window is non-empty, the
    transcript (a heading, one Student:/Assistant: line pair per exchange
    in order, a blank line), then the section with the current question
    and the instruction to respond helpfully and educationally. *)
Theorem C8_prompt_structure (message : string) (history : list Exchange) :
  buildPrompt message history
  = preamble +:+ transcript history +:+ question_section message
  /\ (history = [] -> transcript history = EmptyString)
  /\ (history <> [] ->
      transcript history
      = "Previous conversation context:" +:+ nl +:+
        foldr String.append EmptyString (map exchange_lines history) +:+ nl)
  /\ (forall message' history',
        message' = message -> history' = history ->
        buildPrompt message' history' = buildPrompt message history).
Proof.
  repeat split.
  - unfold buildPrompt. fold preamble. fold (question_section message).
    destruct history as [|x history].
    + reflexivity.
    + replace (0 <? Z.of_nat (length (x :: history))) with true
        by (symmetry; apply Z.ltb_lt; simpl; lia).
      change (fun (prompt : string) (h : Exchange) =>
                prompt +:+ "Student: " +:+ user h +:+ nl +:+
                "Assistant: " +:+ assistant h +:+ nl)
        with (fun (prompt : string) (h : Exchange) => prompt +:+ exchange_lines h).
      rewrite fold_left_append. unfold transcript.
      rewrite !append_assoc. reflexivity.
  - intros ->. reflexivity.
  - intros Hne. destruct history; [contradiction|reflexivity].
  - intros message' history' -> ->. reflexivity.
Qed.

Lemma C8_prompt_structure_witness :
  sample_window <> [] /\
  buildPrompt "What is a heap?" sample_window
  = preamble +:+
    ("Previous conversation context:" +:+ nl +:+
     foldr String.append EmptyString (map exchange_lines sample_window) +:+ nl)
    +:+ question_section "What is a heap?"
  /\ buildPrompt "What is a heap?" [] = preamble +:+ question_section "What is a heap?"
  /\ buildPrompt "What is a heap?" sample_window
     = buildPrompt "What is a heap?" sample_window.
Proof.
  assert (Hne : sample_window <> []) by discriminate.
  destruct (C8_prompt_structure "What is a heap?" sample_window)
    as (Hs & _ & Ht & Hd).
  destruct (C8_prompt_structure "What is a heap?" [])
    as (Hs0 & Ht0 & _ & _).
  split; [exact Hne|]. split; [|split].
  - rewrite Hs, (Ht Hne). reflexivity.
  - rewrite Hs0, (Ht0 eq_refl). reflexivity.
  - exact (Hd "What is a heap?" sample_window eq_refl eq_refl).
Defined.

(** The prompt of the second turn of a conversation, in full. *)
Example buildPrompt_sample :
  buildPrompt "And a queue?"
    [ {| user := "What is a stack?"; assistant := "A LIFO structure." |} ]
  = "You are an AI study assistant specializing in programming and computer science education."
    +:+ nl +:+
    "You help students understand complex concepts through clear explanations and examples and you can use technical terminology appropriately."
    +:+ nl +:+ "Previous conversation context:" +:+ nl +:+
    "Student: What is a stack?" +:+ nl +:+
    "Assistant: A LIFO structure." +:+ nl +:+ nl +:+
    "Current question: And a queue?" +:+ nl +:+ nl +:+
    "Provide a helpful, educational response:".
Proof. vm_compute. reflexivity. Qed.

(** ** Chat Orchestrator *)

Lemma slice_last_5 {A} (l : list A) : slice (-5) l = last_n 5 l.
Proof.
  unfold slice, last_n. cbn [Z.ltb Z.compare]. f_equal. lia.
Qed.

Lemma falsy_false_Str x :
  falsy x = false -> exists s, x = Str s /\ s <> EmptyString.
Proof.
  destruct x as [| |s]; cbn [falsy]; try discriminate.
  destruct (decide (s = EmptyString)) as [->|Hne]; [discriminate|].
  intros _. exists s. split; [reflexivity|exact Hne].
Qed.

Lemma missing_or_empty_falsy x : missing_or_empty x -> falsy x = true.
Proof. intros [->|[->| ->]]; reflexivity. Qed.

Section ChatTurn.
Variable AI : AiInput -> AiOutcome.
Variable Date_now : Z.

Lemma inference_step input w :
  try_catch
    (response <- AI_run AI input ;; ret (or_else response apology))%js
    (fun error =>
       emit (EvConsoleError "AI Error:" error) ;;; ret error_fallback)%js w
  = (Val (reply_of (AI input)),
     {| sessions := sessions w;
        trace := trace w ++ [EvAiRun input] ++ logged (AI input) |}).
Proof.
  unfold try_catch, bind, AI_run, emit, ret, reply_of, logged.
  destruct (AI input) as [error|response]; cbn [sessions trace].
  - rewrite <- app_assoc. reflexivity.
  - rewrite app_nil_r. reflexivity.
Qed.

(** A complete chat turn, for a POST whose body carries a non-empty
    [userId] and a non-empty [message]. *)
Lemma chat_turn request corsHeaders w userId message :
  method request = "POST" ->
  json request = JsonObject (Str userId) (Str message) ->
  userId <> EmptyString -> message <> EmptyString ->
  let h := history_at w userId in
  let input := inference_input message h in
  let reply := reply_of (AI input) in
  let r := {| timestamp := Date_now; userMessage := message; aiResponse := reply |} in
  handleChatRequest AI Date_now request corsHeaders w
  = (Val {| status := 200; headers := json_headers corsHeaders;
            body := ChatJson reply userId |},
     {| sessions :=
          <[userId := drop (if decide (20 <= length h)%nat then 1 else 0) h ++ [r]]>
            (sessions w);
        trace := trace w ++ [EvSession userId history_request; EvAiRun input]
                   ++ logged (AI input)
                   ++ [EvSession userId (add_request message reply)] |}).
Proof.
  intros Hmethod Hjson Hu Hm h input reply r.
  unfold handleChatRequest. rewrite Hmethod, Hjson, String.eqb_refl.
  cbn [negb].
  replace (falsy (Str userId) || falsy (Str message)) with false.
  2:{ cbn [falsy]. destruct (decide (userId = EmptyString)); [contradiction|].
      destruct (decide (message = EmptyString)); [contradiction|]. reflexivity. }
  cbn [to_string].
  erewrite bind_Val by apply session_fetch_history.
  erewrite bind_Val by reflexivity.
  erewrite bind_Val by apply (inference_step (inference_input message h)).
  erewrite bind_Val by apply session_fetch_add.
  unfold ret, with_call. cbn [sessions trace].
  fold h input reply r. unfold history_at. cbn [sessions]. fold (history_at w userId).
  fold h. rewrite <- !app_assoc. reflexivity.
Qed.
End ChatTurn.

Lemma history_at_inserted m t name h :
  history_at {| sessions := <[name := h]> m; trace := t |} name = h.
Proof. unfold history_at. cbn [sessions]. rewrite lookup_insert_eq. reflexivity. Qed.

Lemma history_at_other w m name other request h :
  m = <[name := h]> (sessions w) -> other <> name ->
  history_at (with_call w m name request) other = history_at w other.
Proof.
  intros -> Hne. unfold history_at. simpl.
  rewrite lookup_insert_ne by congruence. reflexivity.
Qed.

(** C2. In a chat turn with non-empty [userId] and [message], when the
    inference call fails the handler still answers 200 with the fixed,
    non-empty fallback string, and the turn is recorded: the user's History
    ends with one new record made of the message and that fallback string,
    exactly one append call was made, and no other key changed. *)
Theorem C2_inference_failure_recorded (AI : AiInput -> AiOutcome) (Date_now : Z)
    (request : Request) (corsHeaders : list (string * string)) (w : World)
    (userId message error : string) :
  method request = "POST" ->
  json request = JsonObject (Str userId) (Str message) ->
  userId <> EmptyString -> message <> EmptyString ->
  AI (inference_input message (history_at w userId)) = AiReject error ->
  let '(res, w') := handleChatRequest AI Date_now request corsHeaders w in
  let r := {| timestamp := Date_now; userMessage := message;
              aiResponse := error_fallback |} in
  res = Val {| status := 200; headers := json_headers corsHeaders;
               body := ChatJson error_fallback userId |}
  /\ error_fallback <> EmptyString
  /\ history_at w' userId = history_after_add w userId Date_now message error_fallback
  /\ (exists front, history_at w' userId = front ++ [r])
  /\ (forall other, other <> userId -> history_at w' other = history_at w other)
  /\ filter is_add_call (drop (length (trace w)) (trace w'))
     = [EvSession userId (add_request message error_fallback)].
Proof.
  intros Hmethod Hjson Hu Hm Hfail.
  rewrite (chat_turn AI Date_now request corsHeaders w userId message
             Hmethod Hjson Hu Hm).
  rewrite Hfail. cbn [reply_of logged].
  repeat split.
  - discriminate.
  - rewrite history_after_add_eq. unfold history_at at 1. cbn [sessions].
    rewrite lookup_insert_eq. reflexivity.
  - eexists. unfold history_at at 1. cbn [sessions].
    rewrite lookup_insert_eq. reflexivity.
  - intros other Hne. unfold history_at. cbn [sessions].
    rewrite lookup_insert_ne by congruence. reflexivity.
  - cbn [trace]. rewrite drop_app_length. reflexivity.
Qed.

Lemma C2_inference_failure_recorded_witness :
  let '(res, w') :=
    handleChatRequest failing_AI 1700 (chat_request (Str "alice") (Str "What is a stack?"))
      [] empty_world in
  res = Val {| status := 200; headers := json_headers [];
               body := ChatJson error_fallback "alice" |}
  /\ history_at w' "alice"
     = [ {| timestamp := 1700; userMessage := "What is a stack?";
            aiResponse := error_fallback |} ].
Proof.
  pose proof (C2_inference_failure_recorded failing_AI 1700
                (chat_request (Str "alice") (Str "What is a stack?"))
                [] empty_world "alice" "What is a stack?" "timed out"
                eq_refl eq_refl ltac:(discriminate) ltac:(discriminate) eq_refl)
    as H.
  destruct (handleChatRequest failing_AI 1700
              (chat_request (Str "alice") (Str "What is a stack?")) [] empty_world)
    as [res w'].
  destruct H as (Hres & _ & Hh & _). split; [exact Hres|].
  rewrite Hh. reflexivity.
Defined.

(** C3, as stated, fails: a POST to [/api/chat] with no body has neither
    [userId] nor [message], yet the handler does not answer 400: reading
    the body throws, and [fetch] answers 500. *)
Lemma C3_no_body_is_500 :
  chat_fields_missing unparsed_chat_request
  /\ handleChatRequest failing_AI 0 unparsed_chat_request cors_headers empty_world
     = (Throw "Unexpected end of JSON input", empty_world)
  /\ exists res,
       fetch failing_AI 0 "<!DOCTYPE html>" unparsed_chat_request empty_world
       = (Val res, empty_world)
       /\ status res = 500
       /\ status res <> 400
       /\ body res = ErrorJson "Unexpected end of JSON input".
Proof.
  split; [exact I|]. split; [reflexivity|].
  eexists. split; [reflexivity|]. repeat split. discriminate.
Qed.

(** C3, amended. For every chat request in which [userId] or [message] is
    missing or empty, the world is left as it was: no History of any key
    is modified and no call to any collaborator is made. The answer is 400
    with the error "Missing userId or message" when the request is a POST
    whose body parses; a POST whose body does not parse makes the handler
    throw the parser's error, which [fetch] answers with 500, and a request
    that is not a POST is answered 405. The same holds when the request
    comes in through [fetch] on [/api/chat]. *)
Theorem C3_missing_field_rejected (AI : AiInput -> AiOutcome) (Date_now : Z)
    (getHTMLContent : string)
    (request : Request) (corsHeaders : list (string * string)) (w : World) :
  chat_fields_missing request ->
  let '(res, w') := handleChatRequest AI Date_now request corsHeaders w in
  w' = w
  /\ (method request = "POST" ->
      forall userId message, json request = JsonObject userId message ->
      res = Val {| status := 400; headers := json_headers corsHeaders;
                   body := ErrorJson "Missing userId or message" |})
  /\ (method request = "POST" ->
      forall error, json request = JsonFail error -> res = Throw error)
  /\ (method request <> "POST" ->
      res = Val {| status := 405; headers := corsHeaders;
                   body := Text "Method not allowed" |})
  /\ (pathname request = "/api/chat" ->
      let '(res', w'') := fetch AI Date_now getHTMLContent request w in
      w'' = w
      /\ (method request = "POST" ->
          forall userId message, json request = JsonObject userId message ->
          exists hs,
            res' = Val {| status := 400; headers := hs;
                          body := ErrorJson "Missing userId or message" |})
      /\ (method request = "POST" ->
          forall error, json request = JsonFail error ->
          exists hs,
            res' = Val {| status := 500; headers := hs;
                          body := ErrorJson error |})).
Proof.
  intros Hmissing.
  assert (Hcases :
    forall cors,
      handleChatRequest AI Date_now request cors w
      = if negb (String.eqb (method request) "POST") then
          (Val {| status := 405; headers := cors;
                  body := Text "Method not allowed" |}, w)
        else
          match json request with
          | JsonFail error => (Throw error, w)
          | JsonObject _ _ =>
              (Val {| status := 400; headers := json_headers cors;
                      body := ErrorJson "Missing userId or message" |}, w)
          end).
  { intros cors. unfold handleChatRequest, chat_fields_missing in *.
    destruct (negb (String.eqb (method request) "POST")); [reflexivity|].
    destruct (json request) as [error|userId message]; [reflexivity|].
    replace (falsy userId || falsy message) with true; [reflexivity|].
    symmetry.
    destruct Hmissing as [H|H]; apply missing_or_empty_falsy in H; rewrite H.
    - reflexivity.
    - apply orb_true_r. }
  rewrite Hcases.
  destruct (String.eqb_spec (method request) "POST") as [Hpost|Hpost];
    cbn [negb].
  - destruct (json request) as [error|userId message] eqn:Hjson.
    + split; [reflexivity|]. split; [intros _ u m [=]|].
      split; [intros _ e [= <-]; reflexivity|].
      split; [intros Hne; contradiction|].
      intros Hpath. unfold fetch. rewrite Hpost, Hpath.
      change (String.eqb "POST" "OPTIONS") with false.
      change (String.eqb "/api/chat" "/api/chat") with true. cbv iota.
      unfold try_catch. rewrite Hcases. cbn [negb ret].
      split; [reflexivity|]. split; [intros _ u m [=]|].
      intros _ e [= <-]. eexists. reflexivity.
    + split; [reflexivity|]. split; [intros _ u m _; reflexivity|].
      split; [intros _ e [=]|].
      split; [intros Hne; contradiction|].
      intros Hpath. unfold fetch. rewrite Hpost, Hpath.
      change (String.eqb "POST" "OPTIONS") with false.
      change (String.eqb "/api/chat" "/api/chat") with true. cbv iota.
      unfold try_catch. rewrite Hcases. cbn [negb].
      split; [reflexivity|]. split; [|intros _ e [=]].
      intros _ u m _. eexists. reflexivity.
  - split; [reflexivity|]. split; [intros Heq; contradiction|].
    split; [intros Heq; contradiction|]. split; [intros _; reflexivity|].
    intros Hpath. unfold fetch. rewrite Hpath.
    destruct (String.eqb (method request) "OPTIONS").
    + cbn [ret]. split; [reflexivity|].
      split; intros Heq; contradiction.
    + change (String.eqb "/api/chat" "/api/chat") with true. cbv iota.
      unfold try_catch. rewrite Hcases. cbn [negb].
      split; [reflexivity|]. split; intros Heq; contradiction.
Qed.

Lemma C3_missing_field_rejected_witness :
  chat_fields_missing (chat_request Absent (Str "hello"))
  /\ handleChatRequest failing_AI 1700 (chat_request Absent (Str "hello")) []
       empty_world
     = (Val {| status := 400; headers := json_headers [];
               body := ErrorJson "Missing userId or message" |}, empty_world).
Proof.
  assert (Hmissing : chat_fields_missing (chat_request Absent (Str "hello")))
    by (left; left; reflexivity).
  split; [exact Hmissing|].
  pose proof (C3_missing_field_rejected failing_AI 1700 EmptyString
                (chat_request Absent (Str "hello")) [] empty_world Hmissing)
    as H.
  destruct (handleChatRequest failing_AI 1700 (chat_request Absent (Str "hello"))
              [] empty_world) as [res w'].
  destruct H as (Hw & H400 & _).
  rewrite Hw, (H400 eq_refl Absent (Str "hello") eq_refl). reflexivity.
Defined.

Lemma recentHistory_last_5 (h : list Interaction) :
  recentHistory h = map to_exchange (last_n (Nat.min (length h) 5) h).
Proof.
  unfold recentHistory. rewrite slice_last_5. unfold last_n.
  replace (length h - Nat.min (length h) 5)%nat with (length h - 5)%nat by lia.
  reflexivity.
Qed.

(** C7. For a History [h] of length [n], the context window is made of
    the last [min n 5] records of [h], oldest first, each mapped to its
    (user, assistant) pair: entry [i] of the window is the pair of record
    [n - min n 5 + i] of [h]. On a chat turn the prompt given to the
    inference service is built from the message and that window, and
    building the window leaves the History alone: the store after the turn
    is the store before it with the one record of the turn appended. *)
Theorem C7_context_window (AI : AiInput -> AiOutcome) (Date_now : Z)
    (request : Request) (corsHeaders : list (string * string)) (w : World)
    (userId message : string) :
  let h := history_at w userId in
  let n := length h in
  let window := map to_exchange (last_n (Nat.min n 5) h) in
  (recentHistory h = window
   /\ length window = Nat.min n 5
   /\ forall i : nat, (i < Nat.min n 5)%nat ->
        window !! i = to_exchange <$> h !! (n - Nat.min n 5 + i)%nat)
  /\ (method request = "POST" ->
      json request = JsonObject (Str userId) (Str message) ->
      userId <> EmptyString -> message <> EmptyString ->
      let '(res, w') := handleChatRequest AI Date_now request corsHeaders w in
      exists reply,
        res = Val {| status := 200; headers := json_headers corsHeaders;
                     body := ChatJson reply userId |}
        /\ filter is_ai_call
             (drop (length (trace w)) (trace w'))
           = [EvAiRun {| model := "@cf/meta/llama-3.2-3b-instruct";
                         prompt := buildPrompt message window;
                         max_tokens := 2048;
                         temperature := 7 # 10 |}]
        /\ sessions w'
           = sessions (snd (session_fetch Date_now userId
                              (add_request message reply) w))).
Proof.
  intros h n window. split.
  - split; [apply recentHistory_last_5|]. split.
    + unfold window. rewrite length_map, last_n_length. unfold n. lia.
    + intros i Hi. unfold window, last_n.
      rewrite list_lookup_fmap, lookup_drop.
      fold n. do 2 f_equal.
  - intros Hmethod Hjson Hu Hm.
    rewrite (chat_turn AI Date_now request corsHeaders w userId message
               Hmethod Hjson Hu Hm).
    eexists. split; [reflexivity|]. split.
    + cbn [trace]. rewrite drop_app_length.
      unfold inference_input. fold h. rewrite recentHistory_last_5. fold n window.
      destruct (AI _); reflexivity.
    + rewrite session_fetch_add. reflexivity.
Qed.

Lemma C7_context_window_witness :
  let '(res, w') :=
    handleChatRequest echo_AI 1700 (chat_request (Str "alice") (Str "What is a stack?"))
      [] seven_turns in
  exists reply,
    res = Val {| status := 200; headers := json_headers [];
                 body := ChatJson reply "alice" |}
    /\ filter is_ai_call
         (drop (length (trace seven_turns)) (trace w'))
       = [EvAiRun {| model := "@cf/meta/llama-3.2-3b-instruct";
                     prompt := buildPrompt "What is a stack?"
                                 (map to_exchange
                                    (map record_of (map sample_op (seq 3 5))));
                     max_tokens := 2048;
                     temperature := 7 # 10 |}]
    /\ sessions w'
       = sessions (snd (session_fetch 1700 "alice"
                          (add_request "What is a stack?" reply) seven_turns)).
Proof.
  exact (proj2 (C7_context_window echo_AI 1700
                  (chat_request (Str "alice") (Str "What is a stack?"))
                  [] seven_turns "alice" "What is a stack?")
           eq_refl eq_refl ltac:(discriminate) ltac:(discriminate)).
Defined.

(** C10. In a chat turn in which the inference call succeeds with an
    empty or absent completion, the reply is the fixed apology string, and
    that string is what the appended record holds as [aiResponse]. For
    every outcome of the inference call, the reply returned and recorded
    is a non-empty string. *)
Theorem C10_empty_completion_replaced (AI : AiInput -> AiOutcome) (Date_now : Z)
    (request : Request) (corsHeaders : list (string * string)) (w : World)
    (userId message : string) :
  method request = "POST" ->
  json request = JsonObject (Str userId) (Str message) ->
  userId <> EmptyString -> message <> EmptyString ->
  let '(res, w') := handleChatRequest AI Date_now request corsHeaders w in
  (forall completion,
     AI (inference_input message (history_at w userId)) = AiResolve completion ->
     missing_or_empty completion ->
     res = Val {| status := 200; headers := json_headers corsHeaders;
                  body := ChatJson apology userId |}
     /\ last (history_at w' userId)
        = Some {| timestamp := Date_now; userMessage := message;
                  aiResponse := apology |}
     /\ apology
        = "I apologize, but I could not generate a response. Please try again.")
  /\ (exists reply,
        reply <> EmptyString
        /\ res = Val {| status := 200; headers := json_headers corsHeaders;
                        body := ChatJson reply userId |}
        /\ last (history_at w' userId)
           = Some {| timestamp := Date_now; userMessage := message;
                     aiResponse := reply |}).
Proof.
  intros Hmethod Hjson Hu Hm.
  rewrite (chat_turn AI Date_now request corsHeaders w userId message
             Hmethod Hjson Hu Hm).
  cbv beta iota. rewrite !history_at_inserted, last_snoc.
  split.
  - intros completion Hc Hempty. rewrite Hc. cbn [reply_of]. unfold or_else.
    rewrite (missing_or_empty_falsy _ Hempty). repeat split.
  - eexists. split; [|split; reflexivity].
    destruct (AI _) as [error|completion]; cbn [reply_of].
    + discriminate.
    + unfold or_else. destruct (falsy completion) eqn:Hf.
      * discriminate.
      * destruct (falsy_false_Str _ Hf) as (s & -> & Hs). exact Hs.
Qed.

Lemma C10_empty_completion_replaced_witness :
  let '(res, w') :=
    handleChatRequest silent_AI 1700 (chat_request (Str "alice") (Str "What is a stack?"))
      [] empty_world in
  res = Val {| status := 200; headers := json_headers [];
               body := ChatJson apology "alice" |}
  /\ last (history_at w' "alice")
     = Some {| timestamp := 1700; userMessage := "What is a stack?";
               aiResponse := apology |}.
Proof.
  pose proof (C10_empty_completion_replaced silent_AI 1700
                (chat_request (Str "alice") (Str "What is a stack?"))
                [] empty_world "alice" "What is a stack?"
                eq_refl eq_refl ltac:(discriminate) ltac:(discriminate)) as H.
  destruct (handleChatRequest silent_AI 1700
              (chat_request (Str "alice") (Str "What is a stack?")) [] empty_world)
    as [res w'].
  destruct H as [H _].
  destruct (H (Str EmptyString) eq_refl (or_intror (or_intror eq_refl)))
    as (Hres & Hlast & _).
  split; assumption.
Defined.

(** ** Routing *)

(** C9, as stated, fails: a request to a path that is no API route is
    answered with status 200 and the static page, not with 404. *)
Lemma C9_unknown_route_serves_page :
  (pathname unknown_route_request ∉ api_routes) /\
  exists res w',
    fetch failing_AI 0 "<!DOCTYPE html>" unknown_route_request empty_world = (Val res, w')
    /\ status res = 200
    /\ status res <> 404
    /\ body res = Html "<!DOCTYPE html>".
Proof.
  split.
  - unfold api_routes. cbn [pathname unknown_route_request].
    rewrite !not_elem_of_cons. repeat split; try discriminate.
    apply not_elem_of_nil.
  - eexists. eexists. split; [reflexivity|]. repeat split. discriminate.
Qed.

(** C9, amended. For every request whose path is not one of the API
    routes, the worker answers with status 200: the static HTML page, or
    the empty preflight answer when the method is OPTIONS. It performs no
    side effect: the store and the trace of calls are left as they were. *)
Theorem C9_unknown_route_no_effect (AI : AiInput -> AiOutcome) (Date_now : Z)
    (getHTMLContent : string) (request : Request) (w : World) :
  pathname request ∉ api_routes ->
  exists res,
    fetch AI Date_now getHTMLContent request w = (Val res, w)
    /\ status res = 200
    /\ (method request <> "OPTIONS" ->
        body res = Html getHTMLContent
        /\ ("Content-Type", "text/html") ∈ headers res)
    /\ (method request = "OPTIONS" -> body res = NullBody).
Proof.
  intros Hroute. unfold api_routes in Hroute.
  rewrite !not_elem_of_cons in Hroute.
  destruct Hroute as (H1 & H2 & H3 & H4 & _).
  unfold fetch.
  destruct (String.eqb_spec (method request) "OPTIONS") as [Hopt|Hopt].
  - eexists. split; [reflexivity|]. split; [reflexivity|].
    split; [intros Hne; contradiction|reflexivity].
  - apply String.eqb_neq in H1, H2, H3, H4. rewrite H1, H2, H3, H4.
    eexists. split; [reflexivity|]. split; [reflexivity|].
    split; [|intros Heq; contradiction].
    intros _. split; [reflexivity|]. cbn [headers]. apply list_elem_of_here.
Qed.

Lemma C9_unknown_route_no_effect_witness :
  (pathname unknown_route_request ∉ api_routes) /\
  exists res,
    fetch failing_AI 0 "<!DOCTYPE html>" unknown_route_request empty_world
    = (Val res, empty_world)
    /\ status res = 200
    /\ (method unknown_route_request <> "OPTIONS" ->
        body res = Html "<!DOCTYPE html>"
        /\ ("Content-Type", "text/html") ∈ headers res)
    /\ (method unknown_route_request = "OPTIONS" -> body res = NullBody).
Proof.
  assert (Hroute : pathname unknown_route_request ∉ api_routes).
  { unfold api_routes. cbn [pathname unknown_route_request].
    rewrite !not_elem_of_cons. repeat split; try discriminate.
    apply not_elem_of_nil. }
  split; [exact Hroute|].
  exact (C9_unknown_route_no_effect failing_AI 0 "<!DOCTYPE html>"
           unknown_route_request empty_world Hroute).
Defined.

(** The router inside the durable object does answer 404 on a path it does
    not know, and leaves its storage alone. *)
Lemma SessionManager_fetch_unknown now request storage :
  SessionManager.pathname request <> "/add" ->
  SessionManager.pathname request <> "/history" ->
  SessionManager.pathname request <> "/clear" ->
  SessionManager.fetch now request storage
  = (Val {| SessionManager.status := 404;
            SessionManager.body := SessionManager.Text "Not found" |}, storage).
Proof.
  intros H1 H2 H3. unfold SessionManager.fetch.
  apply String.eqb_neq in H1, H2, H3. rewrite H1, H2, H3. reflexivity.
Qed.

(** * The router, case by case *)

Lemma falsy_true_missing x : falsy x = true -> missing_or_empty x.
Proof.
  destruct x as [| |s]; cbn [falsy]; unfold missing_or_empty; auto.
  destruct (decide (s = EmptyString)) as [->|Hne]; [auto|discriminate].
Qed.

Lemma reply_of_nonempty (o : AiOutcome) : reply_of o <> EmptyString.
Proof.
  destruct o as [error|completion]; cbn [reply_of]; [discriminate|].
  unfold or_else. destruct (falsy completion) eqn:Hf; [discriminate|].
  destruct (falsy_false_Str _ Hf) as (s & -> & Hs). exact Hs.
Qed.

Section Handlers.
Variable AI : AiInput -> AiOutcome.
Variable Date_now : Z.

Lemma handleChatRequest_not_post request corsHeaders w :
  method request <> "POST" ->
  handleChatRequest AI Date_now request corsHeaders w
  = (Val {| status := 405; headers := corsHeaders;
            body := Text "Method not allowed" |}, w).
Proof.
  intros Hm. unfold handleChatRequest.
  apply String.eqb_neq in Hm. rewrite Hm. reflexivity.
Qed.

Lemma handleChatRequest_unparsed request corsHeaders w error :
  method request = "POST" -> json request = JsonFail error ->
  handleChatRequest AI Date_now request corsHeaders w = (Throw error, w).
Proof.
  intros Hm Hj. unfold handleChatRequest.
  rewrite Hm, Hj, String.eqb_refl. reflexivity.
Qed.

Lemma handleChatRequest_invalid request corsHeaders w userId message :
  method request = "POST" -> json request = JsonObject userId message ->
  falsy userId || falsy message = true ->
  handleChatRequest AI Date_now request corsHeaders w
  = (Val {| status := 400; headers := json_headers corsHeaders;
            body := ErrorJson "Missing userId or message" |}, w).
Proof.
  intros Hm Hj Hf. unfold handleChatRequest.
  rewrite Hm, Hj, String.eqb_refl. cbn [negb]. rewrite Hf. reflexivity.
Qed.

Lemma handleSessionRequest_no_user request corsHeaders w :
  falsy (userId_param request) = true ->
  handleSessionRequest Date_now request corsHeaders w
  = (Val {| status := 400; headers := json_headers corsHeaders;
            body := ErrorJson "Missing userId" |}, w).
Proof. intros Hf. unfold handleSessionRequest. rewrite Hf. reflexivity. Qed.

Lemma handleSessionRequest_read request corsHeaders w userId :
  userId_param request = Str userId -> userId <> EmptyString ->
  handleSessionRequest Date_now request corsHeaders w
  = (Val {| status := 200; headers := json_headers corsHeaders;
            body := HistoryJson (history_at w userId) |},
     with_call w (sessions w) userId history_request).
Proof.
  intros Hp Hu. unfold handleSessionRequest. rewrite Hp. cbn [falsy to_string].
  destruct (decide (userId = EmptyString)); [contradiction|].
  erewrite bind_Val by apply session_fetch_history.
  erewrite bind_Val by reflexivity. reflexivity.
Qed.

Lemma handleClearSessionRequest_not_post request corsHeaders w :
  method request <> "POST" ->
  handleClearSessionRequest Date_now request corsHeaders w
  = (Val {| status := 405; headers := corsHeaders;
            body := Text "Method not allowed" |}, w).
Proof.
  intros Hm. unfold handleClearSessionRequest.
  apply String.eqb_neq in Hm. rewrite Hm. reflexivity.
Qed.

Lemma handleClearSessionRequest_no_user request corsHeaders w :
  method request = "POST" -> falsy (userId_param request) = true ->
  handleClearSessionRequest Date_now request corsHeaders w
  = (Val {| status := 400; headers := json_headers corsHeaders;
            body := ErrorJson "Missing userId" |}, w).
Proof.
  intros Hm Hf. unfold handleClearSessionRequest.
  rewrite Hm, String.eqb_refl. cbn [negb]. rewrite Hf. reflexivity.
Qed.

Lemma handleClearSessionRequest_clear request corsHeaders w userId :
  method request = "POST" ->
  userId_param request = Str userId -> userId <> EmptyString ->
  handleClearSessionRequest Date_now request corsHeaders w
  = (Val {| status := 200; headers := json_headers corsHeaders;
            body := SuccessJson true |},
     with_call w (delete userId (sessions w)) userId clear_request).
Proof.
  intros Hm Hp Hu. unfold handleClearSessionRequest.
  rewrite Hm, Hp, String.eqb_refl. cbn [negb falsy to_string].
  destruct (decide (userId = EmptyString)); [contradiction|].
  erewrite bind_Val by apply session_fetch_clear. reflexivity.
Qed.

Variable getHTMLContent : string.

(** Every request is answered, and in one of the ways of [Outcome]. *)
Lemma fetch_outcome request w :
  exists res w',
    fetch AI Date_now getHTMLContent request w = (Val res, w')
    /\ Outcome AI Date_now getHTMLContent request w res w'.
Proof.
  unfold fetch. fold cors_headers.
  destruct (String.eqb_spec (method request) "OPTIONS") as [Hopt|Hopt].
  { do 2 eexists. split; [reflexivity|]. apply out_preflight. exact Hopt. }
  destruct (String.eqb_spec (pathname request) "/api/chat") as [Hchat|Hchat].
  { destruct (decide (method request = "POST")) as [Hpost|Hpost].
    - destruct (json request) as [error|userId message] eqn:Hjson.
      + erewrite try_catch_Throw
          by (apply handleChatRequest_unparsed; eassumption).
        do 2 eexists. split; [reflexivity|]. eapply out_chat_unparsed; eassumption.
      + destruct (falsy userId || falsy message) eqn:Hf.
        * erewrite try_catch_Val
            by (eapply handleChatRequest_invalid; eassumption).
          do 2 eexists. split; [reflexivity|].
          eapply out_chat_invalid; try eassumption.
          apply orb_true_iff in Hf.
          destruct Hf as [Hf|Hf]; [left|right]; apply falsy_true_missing, Hf.
        * apply orb_false_iff in Hf. destruct Hf as [Hfu Hfm].
          destruct (falsy_false_Str _ Hfu) as (u & -> & Hu).
          destruct (falsy_false_Str _ Hfm) as (m & -> & Hm).
          erewrite try_catch_Val by (apply chat_turn; eassumption).
          do 2 eexists. split; [reflexivity|].
          apply (out_chat_turn AI Date_now getHTMLContent request w u m);
            assumption.
    - erewrite try_catch_Val
        by (apply handleChatRequest_not_post; assumption).
      do 2 eexists. split; [reflexivity|]. apply out_not_post; auto. }
  destruct (String.eqb_spec (pathname request) "/api/session") as [Hses|Hses].
  { destruct (falsy (userId_param request)) eqn:Hf.
    - erewrite try_catch_Val
        by (apply handleSessionRequest_no_user; assumption).
      do 2 eexists. split; [reflexivity|].
      apply out_no_user; auto using falsy_true_missing.
    - destruct (falsy_false_Str _ Hf) as (u & Hp & Hu).
      erewrite try_catch_Val
        by (apply handleSessionRequest_read; eassumption).
      do 2 eexists. split; [reflexivity|].
      apply out_session_read; assumption. }
  destruct (String.eqb_spec (pathname request) "/api/session/clear") as [Hclr|Hclr].
  { destruct (decide (method request = "POST")) as [Hpost|Hpost].
    - destruct (falsy (userId_param request)) eqn:Hf.
      + erewrite try_catch_Val
          by (apply handleClearSessionRequest_no_user; assumption).
        do 2 eexists. split; [reflexivity|].
        apply out_no_user; auto using falsy_true_missing.
      + destruct (falsy_false_Str _ Hf) as (u & Hp & Hu).
        erewrite try_catch_Val
          by (apply handleClearSessionRequest_clear; eassumption).
        do 2 eexists. split; [reflexivity|].
        apply out_session_clear; assumption.
    - erewrite try_catch_Val
        by (apply handleClearSessionRequest_not_post; assumption).
      do 2 eexists. split; [reflexivity|]. apply out_not_post; auto. }
  destruct (String.eqb_spec (pathname request) "/api/voice") as [Hvoice|Hvoice].
  { do 2 eexists. split; [reflexivity|]. apply out_voice; assumption. }
  do 2 eexists. split; [reflexivity|]. apply out_page; [assumption|].
  unfold api_routes. rewrite !not_elem_of_cons. repeat split; try assumption.
  apply not_elem_of_nil.
Qed.

End Handlers.

(** * What the worker answers *)

Ltac in_list :=
  repeat first [apply list_elem_of_here | apply list_elem_of_further].

(** X1. [fetch] answers every request: it never throws, whatever the
    request, the store and the inference service do, and the status of its
    answer is one of 200, 400, 405, 500 and 501. The trace of calls only
    grows. *)
Theorem fetch_always_answers (AI : AiInput -> AiOutcome) (Date_now : Z)
    (getHTMLContent : string) (request : Request) (w : World) :
  exists res w',
    fetch AI Date_now getHTMLContent request w = (Val res, w')
    /\ status res ∈ [200; 400; 405; 500; 501]
    /\ exists calls, trace w' = trace w ++ calls.
Proof.
  destruct (fetch_outcome AI Date_now getHTMLContent request w)
    as (res & w' & Hf & Ho).
  exists res, w'. split; [exact Hf|].
  destruct Ho; cbn [status trace with_call]; (split; [in_list|]);
    try (exists []; rewrite app_nil_r; reflexivity);
    eexists; reflexivity.
Qed.

(** X2. Every answer of [fetch] carries the three CORS headers. *)
Theorem fetch_cors_on_every_answer (AI : AiInput -> AiOutcome) (Date_now : Z)
    (getHTMLContent : string) (request : Request) (w : World) :
  forall res w',
    fetch AI Date_now getHTMLContent request w = (Val res, w') ->
    ("Access-Control-Allow-Origin", "*") ∈ headers res
    /\ ("Access-Control-Allow-Methods", "GET, POST, OPTIONS") ∈ headers res
    /\ ("Access-Control-Allow-Headers", "Content-Type") ∈ headers res.
Proof.
  intros res w' Hres.
  destruct (fetch_outcome AI Date_now getHTMLContent request w)
    as (res0 & w0 & Hf & Ho).
  rewrite Hf in Hres. injection Hres as <- <-.
  destruct Ho; cbn [headers json_headers]; unfold cors_headers;
    repeat split; in_list.
Qed.

Lemma fetch_cors_on_every_answer_witness :
  ("Access-Control-Allow-Origin", "*")
  ∈ headers {| status := 501; headers := json_headers cors_headers;
               body := ErrorJson "Voice transcription not yet implemented" |}.
Proof.
  apply (fetch_cors_on_every_answer failing_AI 0 EmptyString
           {| method := "GET"; pathname := "/api/voice";
              json := JsonFail "Unexpected end of JSON input";
              userId_param := Null |} empty_world _ empty_world).
  reflexivity.
Defined.

Ltac eval_eqb :=
  repeat match goal with
  | |- context [String.eqb ?a ?b] =>
      let v := eval vm_compute in (String.eqb a b) in
      match v with
      | true => change (String.eqb a b) with true
      | false => change (String.eqb a b) with false
      end
  end;
  cbv iota.

Ltac not_options H :=
  let H' := fresh in
  pose proof H as H'; apply String.eqb_neq in H'; rewrite H'; clear H'.

Section Routes.
Variable AI : AiInput -> AiOutcome.
Variable Date_now : Z.
Variable getHTMLContent : string.

Lemma fetch_preflight_eq request w :
  method request = "OPTIONS" ->
  fetch AI Date_now getHTMLContent request w
  = (Val {| status := 200; headers := cors_headers; body := NullBody |}, w).
Proof. intros Hm. unfold fetch. rewrite Hm. eval_eqb. reflexivity. Qed.

Lemma fetch_chat_unparsed_eq request w error :
  method request = "POST" -> pathname request = "/api/chat" ->
  json request = JsonFail error ->
  fetch AI Date_now getHTMLContent request w
  = (Val {| status := 500; headers := json_headers cors_headers;
            body := ErrorJson error |}, w).
Proof.
  intros Hm Hp Hj. unfold fetch. assert (Ho : method request <> "OPTIONS") by (rewrite Hm; discriminate).
  not_options Ho. rewrite Hp. eval_eqb.
  erewrite try_catch_Throw by (apply handleChatRequest_unparsed; eassumption).
  reflexivity.
Qed.

Lemma fetch_not_post_eq request w :
  method request <> "OPTIONS" -> method request <> "POST" ->
  pathname request = "/api/chat" \/ pathname request = "/api/session/clear" ->
  fetch AI Date_now getHTMLContent request w
  = (Val {| status := 405; headers := cors_headers;
            body := Text "Method not allowed" |}, w).
Proof.
  intros Ho Hm [Hp|Hp]; unfold fetch; not_options Ho; rewrite Hp; eval_eqb.
  - erewrite try_catch_Val by (apply handleChatRequest_not_post; assumption).
    reflexivity.
  - erewrite try_catch_Val
      by (apply handleClearSessionRequest_not_post; assumption).
    reflexivity.
Qed.

Lemma fetch_voice_eq request w :
  method request <> "OPTIONS" -> pathname request = "/api/voice" ->
  fetch AI Date_now getHTMLContent request w
  = (Val {| status := 501; headers := json_headers cors_headers;
            body := ErrorJson "Voice transcription not yet implemented" |}, w).
Proof.
  intros Ho Hp. unfold fetch. not_options Ho. rewrite Hp. eval_eqb. reflexivity.
Qed.

Lemma fetch_no_user_eq request w :
  method request <> "OPTIONS" ->
  pathname request = "/api/session"
  \/ (pathname request = "/api/session/clear" /\ method request = "POST") ->
  missing_or_empty (userId_param request) ->
  fetch AI Date_now getHTMLContent request w
  = (Val {| status := 400; headers := json_headers cors_headers;
            body := ErrorJson "Missing userId" |}, w).
Proof.
  intros Ho Hp Hu. apply missing_or_empty_falsy in Hu.
  unfold fetch. not_options Ho. destruct Hp as [Hp|[Hp Hm]]; rewrite Hp; eval_eqb.
  - erewrite try_catch_Val by (apply handleSessionRequest_no_user; assumption).
    reflexivity.
  - erewrite try_catch_Val
      by (apply handleClearSessionRequest_no_user; assumption).
    reflexivity.
Qed.

Lemma fetch_session_read_eq request w userId :
  method request <> "OPTIONS" -> pathname request = "/api/session" ->
  userId_param request = Str userId -> userId <> EmptyString ->
  fetch AI Date_now getHTMLContent request w
  = (Val {| status := 200; headers := json_headers cors_headers;
            body := HistoryJson (history_at w userId) |},
     with_call w (sessions w) userId history_request).
Proof.
  intros Ho Hp Hu Hne. unfold fetch. not_options Ho. rewrite Hp. eval_eqb.
  erewrite try_catch_Val by (apply handleSessionRequest_read; eassumption).
  reflexivity.
Qed.

Lemma fetch_session_clear_eq request w userId :
  method request = "POST" -> pathname request = "/api/session/clear" ->
  userId_param request = Str userId -> userId <> EmptyString ->
  fetch AI Date_now getHTMLContent request w
  = (Val {| status := 200; headers := json_headers cors_headers;
            body := SuccessJson true |},
     with_call w (delete userId (sessions w)) userId clear_request).
Proof.
  intros Hm Hp Hu Hne. unfold fetch. assert (Ho : method request <> "OPTIONS") by (rewrite Hm; discriminate).
  not_options Ho. rewrite Hp. eval_eqb.
  erewrite try_catch_Val
    by (apply handleClearSessionRequest_clear; eassumption).
  reflexivity.
Qed.

Lemma fetch_chat_turn_eq request w userId message :
  method request = "POST" -> pathname request = "/api/chat" ->
  json request = JsonObject (Str userId) (Str message) ->
  userId <> EmptyString -> message <> EmptyString ->
  let h := history_at w userId in
  let input := inference_input message h in
  let reply := reply_of (AI input) in
  fetch AI Date_now getHTMLContent request w
  = (Val {| status := 200; headers := json_headers cors_headers;
            body := ChatJson reply userId |},
     {| sessions :=
          <[userId := evict_then_push h (turn_record Date_now message reply)]>
            (sessions w);
        trace := trace w ++ [EvSession userId history_request; EvAiRun input]
                   ++ logged (AI input)
                   ++ [EvSession userId (add_request message reply)] |}).
Proof.
  intros Hm Hp Hj Hu Hne h input reply.
  unfold fetch. assert (Ho : method request <> "OPTIONS") by (rewrite Hm; discriminate).
  not_options Ho. rewrite Hp. eval_eqb.
  erewrite try_catch_Val by (apply chat_turn; eassumption).
  reflexivity.
Qed.

End Routes.

(** * Routes that leave the store alone *)

(** X3. A preflight request is answered before any routing or validation:
    whatever its path, body and query, an OPTIONS request gets status 200
    with an empty body and exactly the CORS headers, and the world is left
    as it was. *)
Theorem preflight_short_circuits (AI : AiInput -> AiOutcome) (Date_now : Z)
    (getHTMLContent : string) (request : Request) (w : World) :
  method request = "OPTIONS" ->
  fetch AI Date_now getHTMLContent request w
  = (Val {| status := 200; headers := cors_headers; body := NullBody |}, w).
Proof. apply fetch_preflight_eq. Qed.

Lemma preflight_short_circuits_witness :
  fetch echo_AI 0 EmptyString
    {| method := "OPTIONS"; pathname := "/api/chat";
       json := JsonObject (Str "alice") (Str "hello");
       userId_param := Str "alice" |} seven_turns
  = (Val {| status := 200; headers := cors_headers; body := NullBody |},
     seven_turns).
Proof.
  apply (preflight_short_circuits echo_AI 0 EmptyString
           {| method := "OPTIONS"; pathname := "/api/chat";
              json := JsonObject (Str "alice") (Str "hello");
              userId_param := Str "alice" |} seven_turns).
  reflexivity.
Defined.

(** X4. A POST to [/api/chat] whose body does not parse makes
    [request.json()] throw; [fetch] catches the error and answers 500 with
    the error's message, and the world is left as it was. *)
Theorem unparsed_chat_body_is_500 (AI : AiInput -> AiOutcome) (Date_now : Z)
    (getHTMLContent : string) (request : Request) (w : World) (error : string) :
  method request = "POST" -> pathname request = "/api/chat" ->
  json request = JsonFail error ->
  handleChatRequest AI Date_now request cors_headers w = (Throw error, w)
  /\ fetch AI Date_now getHTMLContent request w
     = (Val {| status := 500; headers := json_headers cors_headers;
               body := ErrorJson error |}, w).
Proof.
  intros Hm Hp Hj. split.
  - apply handleChatRequest_unparsed; assumption.
  - apply fetch_chat_unparsed_eq; assumption.
Qed.

Lemma unparsed_chat_body_is_500_witness :
  fetch echo_AI 0 EmptyString unparsed_chat_request seven_turns
  = (Val {| status := 500; headers := json_headers cors_headers;
            body := ErrorJson "Unexpected end of JSON input" |}, seven_turns).
Proof.
  apply (unparsed_chat_body_is_500 echo_AI 0 EmptyString unparsed_chat_request
           seven_turns "Unexpected end of JSON input"); reflexivity.
Defined.

(** X5. On [/api/chat] and [/api/session/clear] the method is checked
    first: a request that is neither OPTIONS nor POST gets status 405 with
    the text "Method not allowed" and the CORS headers, whatever its body
    and query (an unparseable body is not even read), and the world is
    left as it was. *)
Theorem wrong_method_is_405 (AI : AiInput -> AiOutcome) (Date_now : Z)
    (getHTMLContent : string) (request : Request) (w : World) :
  method request <> "OPTIONS" -> method request <> "POST" ->
  pathname request = "/api/chat" \/ pathname request = "/api/session/clear" ->
  exists res,
    fetch AI Date_now getHTMLContent request w = (Val res, w)
    /\ status res = 405
    /\ body res = Text "Method not allowed"
    /\ forall header, header ∈ cors_headers -> header ∈ headers res.
Proof.
  intros Ho Hm Hp. eexists.
  split; [apply fetch_not_post_eq; assumption|].
  cbn [status body headers]. repeat split. intros header Hin. exact Hin.
Qed.

Lemma wrong_method_is_405_witness :
  exists res,
    fetch echo_AI 0 EmptyString
      {| method := "GET"; pathname := "/api/chat";
         json := JsonFail "Unexpected end of JSON input";
         userId_param := Str "alice" |} seven_turns
    = (Val res, seven_turns)
    /\ status res = 405
    /\ body res = Text "Method not allowed"
    /\ forall header, header ∈ cors_headers -> header ∈ headers res.
Proof.
  apply (wrong_method_is_405 echo_AI 0 EmptyString
           {| method := "GET"; pathname := "/api/chat";
              json := JsonFail "Unexpected end of JSON input";
              userId_param := Str "alice" |} seven_turns);
    [discriminate | discriminate | left; reflexivity].
Defined.

(** X6. [/api/voice] is not implemented: every request to it that is not a
    preflight gets 501 with an error body, whatever its method, body and
    query, and the world is left as it was. *)
Theorem voice_is_501 (AI : AiInput -> AiOutcome) (Date_now : Z)
    (getHTMLContent : string) (request : Request) (w : World) :
  method request <> "OPTIONS" -> pathname request = "/api/voice" ->
  handleVoiceRequest request cors_headers w
  = (Val {| status := 501; headers := json_headers cors_headers;
            body := ErrorJson "Voice transcription not yet implemented" |}, w)
  /\ fetch AI Date_now getHTMLContent request w
     = handleVoiceRequest request cors_headers w.
Proof.
  intros Ho Hp. split; [reflexivity|].
  rewrite fetch_voice_eq by assumption. reflexivity.
Qed.

Lemma voice_is_501_witness :
  fetch echo_AI 0 EmptyString
    {| method := "POST"; pathname := "/api/voice";
       json := JsonObject (Str "alice") (Str "hello");
       userId_param := Null |} seven_turns
  = (Val {| status := 501; headers := json_headers cors_headers;
            body := ErrorJson "Voice transcription not yet implemented" |},
     seven_turns).
Proof.
  pose proof (voice_is_501 echo_AI 0 EmptyString
                {| method := "POST"; pathname := "/api/voice";
                   json := JsonObject (Str "alice") (Str "hello");
                   userId_param := Null |} seven_turns
                ltac:(discriminate) eq_refl) as [H1 H2].
  rewrite H2. exact H1.
Defined.

(** X7. [/api/session] and a POST to [/api/session/clear] need a user: when
    the [userId] query parameter is missing or empty the answer is 400
    "Missing userId", and the world is left as it was (no History is read
    or cleared). *)
Theorem missing_user_is_400 (AI : AiInput -> AiOutcome) (Date_now : Z)
    (getHTMLContent : string) (request : Request) (w : World) :
  method request <> "OPTIONS" ->
  pathname request = "/api/session"
  \/ (pathname request = "/api/session/clear" /\ method request = "POST") ->
  missing_or_empty (userId_param request) ->
  fetch AI Date_now getHTMLContent request w
  = (Val {| status := 400; headers := json_headers cors_headers;
            body := ErrorJson "Missing userId" |}, w).
Proof. apply fetch_no_user_eq. Qed.

Lemma missing_user_is_400_witness :
  fetch echo_AI 0 EmptyString
    {| method := "POST"; pathname := "/api/session/clear";
       json := JsonFail "Unexpected end of JSON input";
       userId_param := Str EmptyString |} seven_turns
  = (Val {| status := 400; headers := json_headers cors_headers;
            body := ErrorJson "Missing userId" |}, seven_turns).
Proof.
  apply (missing_user_is_400 echo_AI 0 EmptyString
           {| method := "POST"; pathname := "/api/session/clear";
              json := JsonFail "Unexpected end of JSON input";
              userId_param := Str EmptyString |} seven_turns).
  - discriminate.
  - right. split; reflexivity.
  - right. right. reflexivity.
Defined.

(** * Reading and clearing a History through the worker *)

(** X8. [/api/session] is read-only: for a non-empty [userId] (and any
    method but OPTIONS) the answer is 200 with exactly the History stored
    for that user, the empty array when the user was never written, and
    the store is left as it was; the only call made is one [/history] call
    to that user's object. *)
Theorem session_read_is_read_only (AI : AiInput -> AiOutcome) (Date_now : Z)
    (getHTMLContent : string) (request : Request) (w : World) (userId : string) :
  method request <> "OPTIONS" -> pathname request = "/api/session" ->
  userId_param request = Str userId -> userId <> EmptyString ->
  let '(res, w') := fetch AI Date_now getHTMLContent request w in
  res = Val {| status := 200; headers := json_headers cors_headers;
               body := HistoryJson (default [] (sessions w !! userId)) |}
  /\ sessions w' = sessions w
  /\ new_calls w w' = [EvSession userId history_request].
Proof.
  intros Ho Hp Hu Hne.
  rewrite (fetch_session_read_eq AI Date_now getHTMLContent request w userId)
    by assumption.
  repeat split. unfold new_calls, with_call. cbn [trace].
  rewrite drop_app_length. reflexivity.
Qed.

Lemma session_read_is_read_only_witness :
  let '(res, w') :=
    fetch failing_AI 0 EmptyString (session_request (Str "bob")) seven_turns in
  res = Val {| status := 200; headers := json_headers cors_headers;
               body := HistoryJson [] |}
  /\ sessions w' = sessions seven_turns.
Proof.
  pose proof (session_read_is_read_only failing_AI 0 EmptyString
                (session_request (Str "bob")) seven_turns "bob"
                ltac:(discriminate) eq_refl eq_refl ltac:(discriminate)) as H.
  destruct (fetch failing_AI 0 EmptyString (session_request (Str "bob")) seven_turns)
    as [res w'].
  destruct H as (Hres & Hs & _). split; [exact Hres|exact Hs].
Defined.

(** X9. Reading twice gives the same answer: two requests to
    [/api/session] in a row, with no other request between them, get the
    same response, whatever the request is (valid or not) and whatever
    the clock and the inference service do. *)
Theorem session_read_twice (AI AI' : AiInput -> AiOutcome) (now now' : Z)
    (getHTMLContent : string) (request : Request) (w : World) :
  pathname request = "/api/session" ->
  let '(res, w') := fetch AI now getHTMLContent request w in
  let '(res', w'') := fetch AI' now' getHTMLContent request w' in
  res' = res /\ sessions w'' = sessions w.
Proof.
  intros Hp.
  destruct (decide (method request = "OPTIONS")) as [Ho|Ho].
  { rewrite !fetch_preflight_eq by assumption. split; reflexivity. }
  destruct (falsy (userId_param request)) eqn:Hf.
  - apply falsy_true_missing in Hf.
    rewrite !fetch_no_user_eq by auto. split; reflexivity.
  - destruct (falsy_false_Str _ Hf) as (u & Hu & Hne).
    rewrite (fetch_session_read_eq AI now getHTMLContent request w u)
      by assumption.
    rewrite (fetch_session_read_eq AI' now' getHTMLContent request _ u)
      by assumption.
    split; reflexivity.
Qed.

Lemma session_read_twice_witness :
  let '(res, w') :=
    fetch failing_AI 0 EmptyString (session_request (Str "alice")) seven_turns in
  let '(res', w'') :=
    fetch echo_AI 9 EmptyString (session_request (Str "alice")) w' in
  res' = res /\ sessions w'' = sessions seven_turns.
Proof.
  exact (session_read_twice failing_AI echo_AI 0 9 EmptyString
           (session_request (Str "alice")) seven_turns eq_refl).
Defined.

(** X10. Clearing through the worker: a POST to [/api/session/clear] with
    a non-empty [userId] answers 200 with success, after which a read of
    that user's History returns the empty array, while the History of
    every other user is what it was. *)
Theorem clear_then_read_is_empty (AI AI' : AiInput -> AiOutcome) (now now' : Z)
    (getHTMLContent : string) (clear read : Request) (w : World)
    (userId : string) :
  method clear = "POST" -> pathname clear = "/api/session/clear" ->
  userId_param clear = Str userId ->
  method read <> "OPTIONS" -> pathname read = "/api/session" ->
  userId_param read = Str userId ->
  userId <> EmptyString ->
  let '(res, w') := fetch AI now getHTMLContent clear w in
  let '(res', w'') := fetch AI' now' getHTMLContent read w' in
  res = Val {| status := 200; headers := json_headers cors_headers;
               body := SuccessJson true |}
  /\ res' = Val {| status := 200; headers := json_headers cors_headers;
                   body := HistoryJson [] |}
  /\ forall other, other <> userId -> history_at w'' other = history_at w other.
Proof.
  intros Hm Hp Hu Ho' Hp' Hu' Hne.
  rewrite (fetch_session_clear_eq AI now getHTMLContent clear w userId)
    by assumption.
  rewrite (fetch_session_read_eq AI' now' getHTMLContent read _ userId)
    by assumption.
  split; [reflexivity|]. split.
  - unfold history_at, with_call. cbn [sessions].
    rewrite lookup_delete_eq. reflexivity.
  - intros other Hother. unfold history_at, with_call. cbn [sessions].
    rewrite lookup_delete_ne by congruence. reflexivity.
Qed.

Lemma clear_then_read_is_empty_witness :
  let '(res, w') :=
    fetch failing_AI 0 EmptyString (clear_session_request (Str "alice")) seven_turns in
  let '(res', w'') :=
    fetch failing_AI 1 EmptyString (session_request (Str "alice")) w' in
  res = Val {| status := 200; headers := json_headers cors_headers;
               body := SuccessJson true |}
  /\ res' = Val {| status := 200; headers := json_headers cors_headers;
                   body := HistoryJson [] |}
  /\ forall other, other <> "alice" ->
       history_at w'' other = history_at seven_turns other.
Proof.
  exact (clear_then_read_is_empty failing_AI failing_AI 0 1 EmptyString
           (clear_session_request (Str "alice")) (session_request (Str "alice"))
           seven_turns "alice" eq_refl eq_refl eq_refl ltac:(discriminate)
           eq_refl eq_refl ltac:(discriminate)).
Defined.

(** X11. Clearing a user that was never written succeeds and changes
    nothing in the store. *)
Theorem clear_unknown_user_changes_nothing (AI : AiInput -> AiOutcome)
    (Date_now : Z) (getHTMLContent : string) (request : Request) (w : World)
    (userId : string) :
  method request = "POST" -> pathname request = "/api/session/clear" ->
  userId_param request = Str userId -> userId <> EmptyString ->
  sessions w !! userId = None ->
  let '(res, w') := fetch AI Date_now getHTMLContent request w in
  res = Val {| status := 200; headers := json_headers cors_headers;
               body := SuccessJson true |}
  /\ sessions w' = sessions w.
Proof.
  intros Hm Hp Hu Hne Hnone.
  rewrite (fetch_session_clear_eq AI Date_now getHTMLContent request w userId)
    by assumption.
  split; [reflexivity|]. unfold with_call. cbn [sessions].
  apply delete_id. exact Hnone.
Qed.

Lemma clear_unknown_user_changes_nothing_witness :
  let '(res, w') :=
    fetch failing_AI 0 EmptyString (clear_session_request (Str "bob")) seven_turns in
  res = Val {| status := 200; headers := json_headers cors_headers;
               body := SuccessJson true |}
  /\ sessions w' = sessions seven_turns.
Proof.
  exact (clear_unknown_user_changes_nothing failing_AI 0 EmptyString
           (clear_session_request (Str "bob")) seven_turns "bob"
           eq_refl eq_refl eq_refl ltac:(discriminate) eq_refl).
Defined.

(** * Chat turns and the store *)

Lemma evict_then_push_last_n {A} (l : list A) (x : A) :
  (length l <= 20)%nat ->
  drop (if decide (20 <= length l)%nat then 1 else 0) l ++ [x]
  = last_n 20 (l ++ [x]).
Proof.
  intros Hle. destruct (decide (20 <= length l)%nat) as [Hge|Hlt].
  - unfold last_n. rewrite length_app. cbn [length].
    replace (length l + 1 - 20)%nat with 1%nat by lia.
    rewrite drop_app_le by lia. reflexivity.
  - rewrite drop_0, last_n_all by (rewrite length_app; cbn [length]; lia).
    reflexivity.
Qed.

(** X12. A successful turn, end to end: when the inference service returns
    a non-empty completion, the chat answer carries that completion
    unchanged together with the user's id, and a read of the user's
    History right after returns a History whose last record is the
    message with that completion; when fewer than 20 records were stored,
    it is the old History with that one record added. *)
Theorem chat_then_read (AI AI' : AiInput -> AiOutcome) (now now' : Z)
    (getHTMLContent : string) (chat read : Request) (w : World)
    (userId message completion : string) :
  method chat = "POST" -> pathname chat = "/api/chat" ->
  json chat = JsonObject (Str userId) (Str message) ->
  userId <> EmptyString -> message <> EmptyString ->
  method read <> "OPTIONS" -> pathname read = "/api/session" ->
  userId_param read = Str userId ->
  AI (inference_input message (history_at w userId)) = AiResolve (Str completion) ->
  completion <> EmptyString ->
  let '(res, w') := fetch AI now getHTMLContent chat w in
  let '(res', w'') := fetch AI' now' getHTMLContent read w' in
  res = Val {| status := 200; headers := json_headers cors_headers;
               body := ChatJson completion userId |}
  /\ exists history,
       res' = Val {| status := 200; headers := json_headers cors_headers;
                     body := HistoryJson history |}
       /\ last history
          = Some {| timestamp := now; userMessage := message;
                    aiResponse := completion |}
       /\ ((length (history_at w userId) < 20)%nat ->
           history
           = history_at w userId
             ++ [ {| timestamp := now; userMessage := message;
                     aiResponse := completion |} ]).
Proof.
  intros Hm Hp Hj Hu Hne Ho' Hp' Hu' Hai Hc.
  rewrite (fetch_chat_turn_eq AI now getHTMLContent chat w userId message)
    by assumption.
  rewrite (fetch_session_read_eq AI' now' getHTMLContent read _ userId)
    by assumption.
  rewrite Hai. cbn [reply_of]. unfold or_else. cbn [falsy to_string].
  destruct (decide (completion = EmptyString)); [contradiction|].
  split; [reflexivity|]. eexists. split; [reflexivity|].
  rewrite history_at_inserted. unfold evict_then_push, turn_record. split.
  - apply last_snoc.
  - intros Hlt. destruct (decide (20 <= length (history_at w userId))%nat); [lia|].
    rewrite drop_0. reflexivity.
Qed.

Lemma chat_then_read_witness :
  let '(res, w') :=
    fetch echo_AI 1700 EmptyString
      (chat_request (Str "alice") (Str "What is a stack?")) empty_world in
  let '(res', w'') :=
    fetch echo_AI 1701 EmptyString (session_request (Str "alice")) w' in
  res = Val {| status := 200; headers := json_headers cors_headers;
               body := ChatJson "A stack is a LIFO structure." "alice" |}
  /\ res' = Val {| status := 200; headers := json_headers cors_headers;
                   body := HistoryJson
                             [ {| timestamp := 1700;
                                  userMessage := "What is a stack?";
                                  aiResponse := "A stack is a LIFO structure." |} ] |}.
Proof.
  pose proof (chat_then_read echo_AI echo_AI 1700 1701 EmptyString
                (chat_request (Str "alice") (Str "What is a stack?"))
                (session_request (Str "alice")) empty_world
                "alice" "What is a stack?" "A stack is a LIFO structure."
                eq_refl eq_refl eq_refl ltac:(discriminate) ltac:(discriminate)
                ltac:(discriminate) eq_refl eq_refl eq_refl ltac:(discriminate))
    as H.
  destruct (fetch echo_AI 1700 EmptyString
              (chat_request (Str "alice") (Str "What is a stack?")) empty_world)
    as [res w'].
  destruct (fetch echo_AI 1701 EmptyString (session_request (Str "alice")) w')
    as [res' w''].
  destruct H as (Hres & history & Hres' & _ & Hh).
  split; [exact Hres|]. rewrite Hres'.
  rewrite (Hh ltac:(vm_compute; lia)). reflexivity.
Defined.

(** X13. A request only touches the users it names: the stored History of
    every user whose id is neither the [userId] string of the body nor the
    [userId] string of the query is the same before and after [fetch]; a
    request that carries no such string touches no user at all. *)
Theorem fetch_isolation (AI : AiInput -> AiOutcome) (Date_now : Z)
    (getHTMLContent : string) (request : Request) (w : World) (other : string) :
  other ∉ named_users request ->
  sessions (snd (fetch AI Date_now getHTMLContent request w)) !! other
  = sessions w !! other.
Proof.
  intros Hother.
  destruct (fetch_outcome AI Date_now getHTMLContent request w)
    as (res & w' & Hf & Ho).
  rewrite Hf. cbn [snd].
  destruct Ho as [| | | | | | u m Hm Hp Hj Hu Hne h input reply | | |
                  u Hm Hp Hu Hne];
    try reflexivity.
  - cbn [sessions]. unfold named_users in Hother. rewrite Hj in Hother.
    cbn [app] in Hother. apply not_elem_of_cons in Hother as [Hne' _].
    rewrite lookup_insert_ne by congruence. reflexivity.
  - unfold with_call. cbn [sessions]. unfold named_users in Hother.
    rewrite Hu in Hother. apply not_elem_of_app in Hother as [_ Hother].
    apply not_elem_of_cons in Hother as [Hne' _].
    rewrite lookup_delete_ne by congruence. reflexivity.
Qed.

Lemma fetch_isolation_witness :
  sessions (snd (fetch echo_AI 1700 EmptyString
                   (chat_request (Str "bob") (Str "What is a stack?"))
                   seven_turns)) !! "alice"
  = sessions seven_turns !! "alice".
Proof.
  apply (fetch_isolation echo_AI 1700 EmptyString
           (chat_request (Str "bob") (Str "What is a stack?")) seven_turns "alice").
  unfold named_users. cbn [json chat_request userId_param app].
  rewrite !not_elem_of_cons. repeat split; try discriminate.
  apply not_elem_of_nil.
Defined.

(** X14. Only two kinds of request write to the store: if the store after
    [fetch] differs from the store before, the request was a POST to
    [/api/chat] with non-empty [userId] and [message], or a POST to
    [/api/session/clear] with a non-empty [userId]. *)
Theorem only_chat_and_clear_write (AI : AiInput -> AiOutcome) (Date_now : Z)
    (getHTMLContent : string) (request : Request) (w : World) :
  sessions (snd (fetch AI Date_now getHTMLContent request w)) <> sessions w ->
  method request = "POST"
  /\ ((pathname request = "/api/chat"
       /\ exists userId message,
            json request = JsonObject (Str userId) (Str message)
            /\ userId <> EmptyString /\ message <> EmptyString)
      \/ (pathname request = "/api/session/clear"
          /\ exists userId,
               userId_param request = Str userId /\ userId <> EmptyString)).
Proof.
  intros Hchanged.
  destruct (fetch_outcome AI Date_now getHTMLContent request w)
    as (res & w' & Hf & Ho).
  rewrite Hf in Hchanged. cbn [snd] in Hchanged.
  destruct Ho as [| | | | | | u m Hm Hp Hj Hu Hne h input reply | | |
                  u Hm Hp Hu Hne];
    try (exfalso; apply Hchanged; reflexivity).
  - split; [exact Hm|]. left. split; [exact Hp|]. exists u, m. auto.
  - split; [exact Hm|]. right. split; [exact Hp|]. exists u. auto.
Qed.

Lemma only_chat_and_clear_write_witness :
  method (clear_session_request (Str "alice")) = "POST"
  /\ ((pathname (clear_session_request (Str "alice")) = "/api/chat"
       /\ exists userId message,
            json (clear_session_request (Str "alice"))
            = JsonObject (Str userId) (Str message)
            /\ userId <> EmptyString /\ message <> EmptyString)
      \/ (pathname (clear_session_request (Str "alice")) = "/api/session/clear"
          /\ exists userId,
               userId_param (clear_session_request (Str "alice")) = Str userId
               /\ userId <> EmptyString)).
Proof.
  apply (only_chat_and_clear_write failing_AI 0 EmptyString
           (clear_session_request (Str "alice")) seven_turns).
  intros Heq.
  assert (H : sessions (snd (fetch failing_AI 0 EmptyString
                               (clear_session_request (Str "alice")) seven_turns))
              !! "alice" = sessions seven_turns !! "alice")
    by (rewrite Heq; reflexivity).
  vm_compute in H. discriminate H.
Defined.

(** * Invariants of the store *)

Lemma sound_history_at w name :
  sound_world w ->
  (length (history_at w name) <= 20)%nat /\ Forall filled (history_at w name).
Proof.
  intros Hs. unfold history_at.
  destruct (sessions w !! name) as [h|] eqn:Hl; cbn [default].
  - destruct (Hs name h Hl) as (_ & _ & Hlen & Hf). split; assumption.
  - split; [cbn; lia|constructor].
Qed.

Lemma fetch_sound AI now page request w :
  sound_world w -> sound_world (snd (fetch AI now page request w)).
Proof.
  intros Hs.
  destruct (fetch_outcome AI now page request w) as (res & w' & Hf & Ho).
  rewrite Hf. cbn [snd].
  destruct Ho as [| | | | | | u m Hm Hp Hj Hu Hne h input reply | | |
                  u Hm Hp Hu Hne];
    try exact Hs.
  - intros name h0. cbn [sessions].
    destruct (decide (name = u)) as [->|Hname].
    + rewrite lookup_insert_eq. intros [= <-].
      destruct (sound_history_at w u Hs) as [Hlen Hfill]. fold h in Hlen, Hfill.
      unfold evict_then_push. split; [exact Hu|]. split; [|split].
      * intros Hnil. apply app_eq_nil in Hnil as [_ Hnil]. discriminate.
      * rewrite length_app, length_drop. cbn [length].
        destruct (decide (20 <= length h)%nat); lia.
      * apply Forall_app. split; [apply Forall_drop, Hfill|].
        constructor; [|constructor]. split; [exact Hne|].
        apply reply_of_nonempty.
    + rewrite lookup_insert_ne by congruence. apply Hs.
  - intros name h0. unfold with_call. cbn [sessions].
    destruct (decide (name = u)) as [->|Hname].
    + rewrite lookup_delete_eq. discriminate.
    + rewrite lookup_delete_ne by congruence. apply Hs.
Qed.

Lemma serve_sound page requests :
  forall w, sound_world w -> sound_world (serve page requests w).
Proof.
  induction requests as [|[[AI now] request] requests IH]; intros w Hs.
  - exact Hs.
  - cbn [serve]. apply IH, fetch_sound, Hs.
Qed.

Lemma empty_world_sound : sound_world empty_world.
Proof. intros name h Hl. unfold empty_world in Hl. cbn in Hl. discriminate. Qed.

(** X15. The bound holds for the whole worker: after any sequence of
    requests served from the empty store, whatever the requests, the
    clock and the inference service, the History of every user holds at
    most 20 records. *)
Theorem served_histories_bounded (page : string)
    (requests : list ((AiInput -> AiOutcome) * Z * Request)) (name : string) :
  (length (history_at (serve page requests empty_world) name) <= 20)%nat.
Proof.
  apply sound_history_at, serve_sound, empty_world_sound.
Qed.

(** X16. After any sequence of requests served from the empty store, no
    stored record has an empty question or an empty reply, no History is
    stored under the empty user id, and a stored History is never the
    empty array (a user is either absent from the store or has at least
    one record). *)
Theorem served_records_filled (page : string)
    (requests : list ((AiInput -> AiOutcome) * Z * Request)) (name : string) :
  let w := serve page requests empty_world in
  (forall r, r ∈ history_at w name ->
     userMessage r <> EmptyString /\ aiResponse r <> EmptyString)
  /\ sessions w !! EmptyString = None
  /\ sessions w !! name <> Some [].
Proof.
  intros w.
  assert (Hs : sound_world w) by apply serve_sound, empty_world_sound.
  split; [|split].
  - intros r Hr. destruct (sound_history_at w name Hs) as [_ Hf].
    rewrite Forall_forall in Hf. apply (Hf r Hr).
  - destruct (sessions w !! EmptyString) as [h|] eqn:Hl; [|reflexivity].
    destruct (Hs _ _ Hl) as [Hne _]. contradiction.
  - intros Hl. destruct (Hs _ _ Hl) as (_ & Hne & _). contradiction.
Qed.

(** X17. Recording and inference go together: among the calls one request
    adds to the trace there are as many [/add] calls as calls of the
    inference service, at most one of each, and there is none unless the
    request is a POST to [/api/chat]. *)
Theorem one_inference_one_record (AI : AiInput -> AiOutcome) (Date_now : Z)
    (getHTMLContent : string) (request : Request) (w : World) :
  let w' := snd (fetch AI Date_now getHTMLContent request w) in
  let adds := length (filter is_add_call (new_calls w w')) in
  let runs := length (filter is_ai_call (new_calls w w')) in
  adds = runs /\ (runs <= 1)%nat
  /\ (runs = 1%nat -> method request = "POST" /\ pathname request = "/api/chat").
Proof.
  destruct (fetch_outcome AI Date_now getHTMLContent request w)
    as (res & w' & Hf & Ho).
  rewrite Hf. cbn [snd]. unfold new_calls.
  destruct Ho as [| | | | | | u m Hm Hp Hj Hu Hne h input reply | | | ];
    unfold with_call; cbn [trace];
    rewrite ?drop_app_length, ?drop_all;
    try (cbn; repeat split; try lia; discriminate).
  - destruct (AI input); cbn; repeat split; auto.
  - split; [reflexivity|]. split; [vm_compute; lia|].
    intros Hone. vm_compute in Hone. discriminate Hone.
  - split; [reflexivity|]. split; [vm_compute; lia|].
    intros Hone. vm_compute in Hone. discriminate Hone.
Qed.

(** * A conversation through the worker *)

Lemma serve_chat_turns page userId turns :
  userId <> EmptyString ->
  Forall (fun turn => turn_message turn <> EmptyString) turns ->
  forall w pre,
    map asked (history_at w userId) = last_n 20 pre ->
    map asked (history_at (serve page (map (chat_turn_of userId) turns) w) userId)
    = last_n 20 (pre ++ map turn_asked turns).
Proof.
  intros Hu Hall. induction Hall as [|[[AI now] message] turns Hm Hall IH];
    intros w pre Hw.
  - cbn [map serve]. rewrite app_nil_r. exact Hw.
  - cbn [map serve chat_turn_of]. cbn [turn_message] in Hm.
    rewrite (fetch_chat_turn_eq AI now page
               (chat_request (Str userId) (Str message)) w userId message)
      by (try reflexivity; assumption).
    cbn [snd].
    rewrite (IH _ (pre ++ [(now, message)])).
    + rewrite <- app_assoc. reflexivity.
    + rewrite history_at_inserted. unfold evict_then_push.
      rewrite map_app, <- skipn_map. cbn [map asked turn_record timestamp userMessage].
      rewrite <- (length_map asked (history_at w userId)).
      rewrite evict_then_push_last_n
        by (rewrite Hw, last_n_length; lia).
      rewrite Hw. apply last_n_snoc. lia.
Qed.

(** X18. The worker remembers the last 20 questions: when a user with no
    stored History holds a conversation of any number of chat turns with
    non-empty messages, whatever the inference service answers or fails
    to answer, the stored History then holds the times and messages of
    exactly the last 20 turns, in the order they were asked. *)
Theorem worker_remembers_last_20 (page : string) (userId : string)
    (turns : list ((AiInput -> AiOutcome) * Z * string)) (w : World) :
  userId <> EmptyString ->
  Forall (fun turn => turn_message turn <> EmptyString) turns ->
  history_at w userId = [] ->
  map asked (history_at (serve page (map (chat_turn_of userId) turns) w) userId)
  = last_n 20 (map turn_asked turns).
Proof.
  intros Hu Hall Hw.
  apply (serve_chat_turns page userId turns Hu Hall w []).
  rewrite Hw. reflexivity.
Qed.

Lemma worker_remembers_last_20_witness :
  map asked
    (history_at
       (serve EmptyString
          (map (chat_turn_of "alice")
             (map (fun i => (if Nat.even i then failing_AI else echo_AI,
                             Z.of_nat i, "question"))
                (seq 1 23)))
          empty_world) "alice")
  = map (fun i => (Z.of_nat i, "question")) (seq 4 20).
Proof.
  rewrite (worker_remembers_last_20 EmptyString "alice"
             (map (fun i => (if Nat.even i then failing_AI else echo_AI,
                             Z.of_nat i, "question"))
                (seq 1 23))
             empty_world ltac:(discriminate)).
  - reflexivity.
  - repeat constructor; discriminate.
  - reflexivity.
Defined.

(** * More on the prompt *)

Lemma buildPrompt_parts (message : string) (history : list Exchange) :
  buildPrompt message history
  = preamble +:+ transcript history +:+ question_section message.
Proof.
  unfold buildPrompt. fold preamble. fold (question_section message).
  destruct history as [|x history]; [reflexivity|].
  replace (0 <? Z.of_nat (length (x :: history))) with true
    by (symmetry; apply Z.ltb_lt; simpl; lia).
  change (fun (prompt : string) (h : Exchange) =>
            prompt +:+ "Student: " +:+ user h +:+ nl +:+
            "Assistant: " +:+ assistant h +:+ nl)
    with (fun (prompt : string) (h : Exchange) => prompt +:+ exchange_lines h).
  rewrite fold_left_append. unfold transcript.
  rewrite !append_assoc. reflexivity.
Qed.

Lemma foldr_append_app (l1 l2 : list string) :
  foldr String.append EmptyString (l1 ++ l2)
  = foldr String.append EmptyString l1 +:+ foldr String.append EmptyString l2.
Proof.
  induction l1 as [|s l1 IH]; [reflexivity|].
  cbn [app foldr]. rewrite IH, append_assoc. reflexivity.
Qed.

Lemma length_append (s t : string) :
  String.length (s +:+ t) = (String.length s + String.length t)%nat.
Proof.
  induction s as [|a s IH]; [reflexivity|].
  rewrite append_cons. cbn [String.length]. rewrite IH. reflexivity.
Qed.

(** X19. The transcript does not escape what users wrote: two consecutive
    exchanges (a, b) and (c, d) of a context window give the same prompt
    as the single exchange whose user text is a, a line end, the label
    "Assistant: ", b, a line end, the label "Student: " and c, and whose
    reply is d. The prompt therefore does not determine the window: a
    stored question can stand for a whole exchange. *)
Theorem prompt_labels_can_be_forged (message : string)
    (before after : list Exchange) (a b c d : string) :
  buildPrompt message
    (before ++ [ {| user := a; assistant := b |};
                 {| user := c; assistant := d |} ] ++ after)
  = buildPrompt message
      (before ++ [ {| user := forged_user a b c; assistant := d |} ] ++ after).
Proof.
  rewrite !buildPrompt_parts. f_equal. f_equal.
  assert (Hlines :
    foldr String.append EmptyString
      (map exchange_lines
         (before ++ [ {| user := a; assistant := b |};
                      {| user := c; assistant := d |} ] ++ after))
    = foldr String.append EmptyString
        (map exchange_lines
           (before ++ [ {| user := forged_user a b c; assistant := d |} ] ++ after))).
  { rewrite !map_app, !foldr_append_app. f_equal. f_equal.
    cbn [map foldr]. unfold exchange_lines, forged_user. cbn [user assistant].
    rewrite !append_nil_r, !append_assoc. reflexivity. }
  unfold transcript.
  destruct before as [|x before]; cbn [app]; cbn [app] in Hlines;
    rewrite Hlines; reflexivity.
Qed.

(** X20. The prompt builder truncates nothing: the length of the prompt
    is 289 characters of fixed text plus the length of the message, plus,
    when the window is not empty, 32 characters of heading and blank line
    and, for each exchange, its two texts and 22 characters of labels and
    line ends. *)
Theorem prompt_length (message : string) (history : list Exchange) :
  String.length (buildPrompt message history)
  = (289 + String.length message
     + match history with
       | [] => 0
       | _ :: _ => 32 + total_length (map exchange_size history)
       end)%nat.
Proof.
  rewrite buildPrompt_parts, !length_append.
  assert (Hq : String.length (question_section message)
               = (60 + String.length message)%nat).
  { unfold question_section. rewrite !length_append. cbn [String.length nl]. lia. }
  assert (Hl : forall l,
             String.length (foldr String.append EmptyString (map exchange_lines l))
             = total_length (map exchange_size l)).
  { induction l as [|x l IH]; [reflexivity|].
    change (total_length (map exchange_size (x :: l)))
      with (exchange_size x + total_length (map exchange_size l))%nat.
    cbn [map foldr]. rewrite length_append, IH.
    generalize (total_length (map exchange_size l)). intros rest.
    unfold exchange_lines, exchange_size. rewrite !length_append.
    cbn [String.length nl]. lia. }
  rewrite Hq. change (String.length preamble) with 229%nat.
  destruct history as [|x history].
  - cbn [transcript String.length]. lia.
  - unfold transcript. rewrite !length_append, Hl. cbn [String.length nl]. lia.
Qed.

(** * More on the durable object *)

(** X21. The object knows three paths: a call through the stub with any
    other path is answered 404 "Not found", whatever its body, and leaves
    the History of every user as it was. *)
Theorem object_unknown_path_is_404 (now : Z) (name : string)
    (request : SessionManager.Request) (w : World) :
  SessionManager.pathname request <> "/add" ->
  SessionManager.pathname request <> "/history" ->
  SessionManager.pathname request <> "/clear" ->
  let '(res, w') := session_fetch now name request w in
  res = Val {| SessionManager.status := 404;
               SessionManager.body := SessionManager.Text "Not found" |}
  /\ sessions w' = sessions w.
Proof.
  intros H1 H2 H3. unfold session_fetch.
  rewrite SessionManager_fetch_unknown by assumption.
  split; [reflexivity|]. cbn [sessions]. apply partial_alter_self.
Qed.

Lemma object_unknown_path_is_404_witness :
  let '(res, w') :=
    session_fetch 0 "alice"
      {| SessionManager.pathname := "/export";
         SessionManager.json := SessionManager.JsonAdd "q" "a" |}
      seven_turns in
  res = Val {| SessionManager.status := 404;
               SessionManager.body := SessionManager.Text "Not found" |}
  /\ sessions w' = sessions seven_turns.
Proof.
  exact (object_unknown_path_is_404 0 "alice"
           {| SessionManager.pathname := "/export";
              SessionManager.json := SessionManager.JsonAdd "q" "a" |}
           seven_turns ltac:(discriminate) ltac:(discriminate)
           ltac:(discriminate)).
Defined.

(** X22. An append is all or nothing: when the body of an [/add] request
    does not parse, the object throws before it reads or writes its
    storage, so the call through the stub fails with that error and the
    History of every user is what it was. *)
Theorem add_unparsed_body_keeps_history (now : Z) (name : string)
    (request : SessionManager.Request) (w : World) (error : string) :
  SessionManager.pathname request = "/add" ->
  SessionManager.json request = SessionManager.JsonFail error ->
  let '(res, w') := session_fetch now name request w in
  res = Throw error /\ sessions w' = sessions w.
Proof.
  intros Hp Hj. unfold session_fetch, SessionManager.fetch.
  rewrite Hp. eval_eqb. unfold SessionManager.addInteraction. rewrite Hj.
  split; [reflexivity|]. cbn [sessions]. apply partial_alter_self.
Qed.

Lemma add_unparsed_body_keeps_history_witness :
  let '(res, w') :=
    session_fetch 0 "alice"
      {| SessionManager.pathname := "/add";
         SessionManager.json := SessionManager.JsonFail "Unexpected token" |}
      seven_turns in
  res = Throw "Unexpected token" /\ sessions w' = sessions seven_turns.
Proof.
  exact (add_unparsed_body_keeps_history 0 "alice"
           {| SessionManager.pathname := "/add";
              SessionManager.json := SessionManager.JsonFail "Unexpected token" |}
           seven_turns "Unexpected token" eq_refl eq_refl).
Defined.

Lemma object_fetch_keeps_bound now request storage :
  match storage with
  | None => True
  | Some h => (1 <= length h <= 20)%nat
  end ->
  match snd (SessionManager.fetch now request storage) with
  | None => True
  | Some h => (1 <= length h <= 20)%nat
  end.
Proof.
  intros Hinv. unfold SessionManager.fetch.
  destruct (String.eqb (SessionManager.pathname request) "/add").
  - destruct (SessionManager.json request) as [error|message response] eqn:Hj.
    + unfold SessionManager.addInteraction. rewrite Hj. exact Hinv.
    + assert (E : SessionManager.addInteraction now request storage
                  = SessionManager.addInteraction now
                      (add_request message response) storage)
        by (unfold SessionManager.addInteraction; rewrite Hj; reflexivity).
      rewrite E, addInteraction_stores. cbn [snd].
      rewrite length_app, length_drop. cbn [length].
      destruct storage as [h|]; unfold default, from_option, id.
      * destruct (decide (20 <= length h)%nat); lia.
      * cbn. lia.
  - destruct (String.eqb (SessionManager.pathname request) "/history");
      [exact Hinv|].
    destruct (String.eqb (SessionManager.pathname request) "/clear");
      [exact I|exact Hinv].
Qed.

(** X23. The object keeps its storage within bounds on its own: after any
    sequence of requests sent straight to it from empty storage (appends
    with any strings, reads, clears, unknown paths, bodies that do not
    parse), the storage is either empty or a History of at least 1 and at
    most 20 records. *)
Theorem object_storage_bounded (requests : list (Z * SessionManager.Request)) :
  match run_object requests None with
  | None => True
  | Some h => (1 <= length h <= 20)%nat
  end.
Proof.
  assert (H : forall storage,
             match storage with
             | None => True
             | Some h => (1 <= length h <= 20)%nat
             end ->
             match run_object requests storage with
             | None => True
             | Some h => (1 <= length h <= 20)%nat
             end).
  { induction requests as [|[now request] requests IH]; intros storage Hinv.
    - exact Hinv.
    - cbn [run_object]. apply IH, object_fetch_keeps_bound, Hinv. }
  apply H. exact I.
Qed.
